(** * readme-generator: scanner, detector, template generator, enhancer

    A shallow embedding of the four modules of the repository
    ([scanner.py], [detector.py], [template.py], [enhancer.py]) together with
    the properties established about them.

    Conventions of the embedding.
    - A Python [str] is a [string] (its UTF-8 bytes); [lower] lowers the
      ASCII letters and leaves every other byte as it is, where Python
      also lowers the letters outside ASCII.
    - A [pathlib.Path] is the list of its [parts], as in Python 3.11; an
      absolute path starts with the part ["/"].
    - The file system under the project directory is a finite tree of
      [entry] values. A directory carries two flags: whether listing it
      succeeds ([iterdir] raising [PermissionError] otherwise) and whether
      it can be searched ([stat] of a path through it raising
      [PermissionError] otherwise). An entry can also be one whose own
      [stat] is refused. A link that leads nowhere is seen by neither
      [is_file], [is_dir] nor [exists], and is left out of the tree.
    - Python sets are [gset], dicts used as maps are [gmap]; [sorted] is a
      stable insertion sort. *)

From Stdlib Require Import String Ascii List Bool Arith Lia Permutation Sorted.
From Stdlib Require Import DecimalString.
From stdpp Require Import gmap strings.
Import ListNotations.

(** ** Python strings *)

Module Str.

(** The characters that cannot be typed directly in a literal. *)
Definition nl : string := String (ascii_of_nat 10) EmptyString.
Definition dq : string := String (ascii_of_nat 34) EmptyString.

(** [sub in s] *)
Fixpoint contains (sub s : string) : bool :=
  String.prefix sub s ||
  match s with
  | EmptyString => false
  | String _ s' => contains sub s'
  end.

(** [s.startswith(p)] *)
Definition startswith (s p : string) : bool := String.prefix p s.

Definition lower_ascii (c : ascii) : ascii :=
  let n := nat_of_ascii c in
  if (65 <=? n) && (n <=? 90) then ascii_of_nat (n + 32) else c.

(** [s.lower()] *)
Fixpoint lower (s : string) : string :=
  match s with
  | EmptyString => EmptyString
  | String c s' => String (lower_ascii c) (lower s')
  end.

(** [s.replace(old, new)] for a one-character [old], the only form the
    code uses. *)
Fixpoint replace (old : ascii) (new : string) (s : string) : string :=
  match s with
  | EmptyString => EmptyString
  | String c s' =>
      if Ascii.eqb c old then new +:+ replace old new s'
      else String c (replace old new s')
  end.

(** [sep.join(l)] *)
Definition join (sep : string) (l : list string) : string :=
  String.concat sep l.

(** A text written over several lines. *)
Definition multiline (l : list string) : string := join nl l.

(** [s * n] *)
Fixpoint repeat (s : string) (n : nat) : string :=
  match n with
  | O => EmptyString
  | S n' => s +:+ repeat s n'
  end.

(** [str(n)] for a non-negative integer. *)
Definition of_nat (n : nat) : string :=
  NilZero.string_of_uint (Nat.to_uint n).

(** [str(b)] for a boolean. *)
Definition of_bool (b : bool) : string := if b then "True" else "False".

(** [s.split(sep)] for a one-character separator: the pieces between the
    separators, empty pieces included. [cur] is the piece being read. *)
Fixpoint split_char_aux (sep : ascii) (s : string) (cur : string) : list string :=
  match s with
  | EmptyString => [cur]
  | String c s' =>
      if Ascii.eqb c sep then cur :: split_char_aux sep s' EmptyString
      else split_char_aux sep s' (cur +:+ String c EmptyString)
  end.

Definition split_char (sep : ascii) (s : string) : list string :=
  split_char_aux sep s EmptyString.

Definition is_space (c : ascii) : bool :=
  let n := nat_of_ascii c in
  (n =? 32) || ((9 <=? n) && (n <=? 13)) || ((28 <=? n) && (n <=? 31)).

(** [s.split()]: the maximal runs of non-whitespace characters. *)
Fixpoint split_ws_aux (s : string) (cur : string) : list string :=
  match s with
  | EmptyString =>
      if String.eqb cur EmptyString then [] else [cur]
  | String c s' =>
      if is_space c then
        if String.eqb cur EmptyString then split_ws_aux s' EmptyString
        else cur :: split_ws_aux s' EmptyString
      else split_ws_aux s' (cur +:+ String c EmptyString)
  end.

Definition split_ws (s : string) : list string :=
  split_ws_aux s EmptyString.

(** [s.split(sep)] for a separator of any positive length; [fuel] bounds
    the number of characters still to read and is taken as the length of
    the text. *)
Fixpoint drop (n : nat) (s : string) : string :=
  match n, s with
  | O, _ => s
  | S _, EmptyString => EmptyString
  | S n', String _ s' => drop n' s'
  end.

Fixpoint split_str_aux (fuel : nat) (sep s cur : string) : list string :=
  match fuel with
  | O => [cur +:+ s]
  | S fuel' =>
      match s with
      | EmptyString => [cur]
      | String c s' =>
          if String.prefix sep s
          then cur :: split_str_aux fuel' sep (drop (String.length sep) s) EmptyString
          else split_str_aux fuel' sep s' (cur +:+ String c EmptyString)
      end
  end.

Definition split_str (sep s : string) : list string :=
  split_str_aux (S (String.length s)) sep s EmptyString.

(** Comparison of strings, as Python compares: by code point, which on
    UTF-8 text is the order of the bytes. *)
Definition leb (a b : string) : bool := String.leb a b.

End Str.

(** ** Python's [sorted] *)

Section Sorted.
Context {A : Type} (le : A -> A -> bool).

Fixpoint insert_sorted (x : A) (l : list A) : list A :=
  match l with
  | [] => [x]
  | y :: r => if le x y then x :: l else y :: insert_sorted x r
  end.

(** A stable sort: among equal elements the earlier stays first. *)
Fixpoint sorted (l : list A) : list A :=
  match l with
  | [] => []
  | x :: r => insert_sorted x (sorted r)
  end.
End Sorted.

(** Lexicographic order on lists of strings ([list.__le__]). *)
Fixpoint list_leb (a b : list string) : bool :=
  match a, b with
  | [], _ => true
  | _ :: _, [] => false
  | x :: a', y :: b' =>
      match String.compare x y with
      | Lt => true
      | Gt => false
      | Eq => list_leb a' b'
      end
  end.

(** ** pathlib *)

Abbreviation Path := (list string).

Module PurePath.

(** The parts a string contributes to a path: split at the separator,
    empty components and ["."] dropped. *)
Definition parse_parts (s : string) : list string :=
  List.filter (fun c => negb (String.eqb c EmptyString) && negb (String.eqb c "."))
         (Str.split_char "/"%char s).

(** [p / s] *)
Definition joinpath (p : Path) (s : string) : Path :=
  if Str.startswith s "/" then "/" :: parse_parts s else p ++ parse_parts s.

(** The path [iterdir] yields for the entry called [name]. *)
Definition child (p : Path) (name : string) : Path := p ++ [name].

(** [str(p)] *)
Definition str (p : Path) : string :=
  match p with
  | [] => "."
  | a :: rest =>
      if String.eqb a "/" then "/" +:+ Str.join "/" rest
      else Str.join "/" p
  end.

(** [p.name] *)
Definition name (p : Path) : string :=
  match p with
  | [a] => if String.eqb a "/" then EmptyString else a
  | _ => List.last p EmptyString
  end.

(** Index of the last ["."] of [s], counted with [i] the index of the
    first character of [s]. *)
Fixpoint rfind_dot (s : string) (i : nat) : option nat :=
  match s with
  | EmptyString => None
  | String c s' =>
      match rfind_dot s' (S i) with
      | Some j => Some j
      | None => if Ascii.eqb c "."%char then Some i else None
      end
  end.

(** [p.suffix]: the last dot of the name and what follows, unless that dot
    is the first or the last character of the name. *)
Definition suffix (p : Path) : string :=
  let nm := name p in
  match rfind_dot nm 0 with
  | Some i =>
      if (0 <? i) && (i <? String.length nm - 1) then Str.drop i nm
      else EmptyString
  | None => EmptyString
  end.

(** [p.parent] *)
Definition parent (p : Path) : Path := removelast p.

(** [p.relative_to(base)], for a [p] that extends [base]. *)
Definition relative_to (p base : Path) : Path := skipn (length base) p.

(** [p <= q]: the parts are compared, so that [Path('.')], which has
    none, comes first. *)
Definition leb (p q : Path) : bool := list_leb p q.

End PurePath.

(** ** The file system under the project directory *)

#[local] Set Warnings "-register-all".

(** What is found under a name.
    - [File]: a regular file.
    - [Dir]: a directory, with whether it can be listed ([iterdir] needs
      the permission to read it), whether it can be searched ([stat] of
      anything in it needs the permission to search it), and its entries
      in the order [iterdir] yields them.
    - [Other]: something that exists and is neither, a socket or a device.
    - [Denied]: an entry whose [stat] is refused, such as a link into a
      place the user may not search; [is_file], [is_dir] and [exists] let
      the [PermissionError] through. *)
Inductive entry : Type :=
| File (name : string)
| Dir (name : string) (listable searchable : bool) (children : list entry)
| Other (name : string)
| Denied (name : string).

Definition entry_name (e : entry) : string :=
  match e with
  | File n => n
  | Dir n _ _ _ => n
  | Other n => n
  | Denied n => n
  end.

(** The project directory: its path, whether it can be listed, whether
    it can be searched, and what it holds. *)
Record project : Type := Project {
  root_path : Path;
  root_listable : bool;
  root_searchable : bool;
  root_entries : list entry
}.

(** [(root / rel).exists()], with [rel] the parts below a directory that
    holds [items]: [stat] walks the parts, and [exists] answers [False]
    when a part is missing or lies under something that is no directory.
    [None] stands for the [PermissionError] of a [stat] that is refused,
    which [exists] does not catch. *)
Fixpoint exists_under (searchable : bool) (items : list entry) (rel : list string)
    {struct rel} : option bool :=
  match rel with
  | [] => Some true
  | n :: rest =>
      if negb searchable then None
      else
        match find (fun e => String.eqb (entry_name e) n) items with
        | Some (Dir _ _ searchable' children) => exists_under searchable' children rest
        | Some (Denied _) => None
        | Some _ => Some (match rest with [] => true | _ :: _ => false end)
        | None => Some false
        end
  end.

(** ** The dictionaries passed between the modules *)

(** The dict returned by [ProjectScanner.scan]. *)
Record ScanResult : Type := {
  project_path : Path;
  project_name : string;
  files : list Path;
  directories : list Path;
  file_count : nat;
  dir_count : nat;
  extensions : list string;
  file_tree : string;
  special_files : gmap string Path
}.

(** The dict returned by [TechDetector.detect]. *)
Record TechInfo : Type := {
  languages : list string;
  frameworks : list string;
  package_managers : list string;
  tools : list string;
  primary_language : string;
  has_tests : bool;
  has_docs : bool;
  has_ci : bool
}.

(** [key in d] for a dict. *)
Definition has_key {V : Type} (k : string) (d : gmap string V) : bool :=
  bool_decide (is_Some (d !! k)).

(** ** scanner.py *)

Module ProjectScanner.

Definition IGNORE_DIRS : gset string := list_to_set [
  "__pycache__"; ".git"; ".github"; "node_modules"; "venv"; "env";
  ".venv"; "dist"; "build"; ".next"; ".nuxt"; "target"; "bin"; "obj";
  ".idea"; ".vscode"; ".DS_Store"; "coverage"; ".pytest_cache";
  "__MACOSX"; ".mypy_cache"; ".tox"
].

Definition IGNORE_FILES : gset string := list_to_set [
  ".DS_Store"; "Thumbs.db"; ".gitignore"; ".gitattributes";
  "package-lock.json"; "yarn.lock"; "poetry.lock"; "Pipfile.lock"
].

(** The set literal of [_scan_recursive]'s second test. *)
Definition ALLOWED_DOTFILES : gset string :=
  list_to_set [".env.example"; ".editorconfig"].

(** The attributes of a scanner object. *)
Record t : Type := {
  self_project_path : Path;
  self_files : list Path;
  self_directories : list Path;
  self_file_extensions : gset string
}.

(** [__init__] *)
Definition init (project_path : Path) : t :=
  {| self_project_path := project_path;
     self_files := [];
     self_directories := [];
     self_file_extensions := ∅ |}.

(** [item.name in self.IGNORE_DIRS or item.name in self.IGNORE_FILES] *)
Definition ignored (name : string) : bool :=
  bool_decide (name ∈ IGNORE_DIRS) || bool_decide (name ∈ IGNORE_FILES).

(** [item.name.startswith('.') and item.name not in {...}] *)
Definition hidden (name : string) : bool :=
  Str.startswith name "." && negb (bool_decide (name ∈ ALLOWED_DOTFILES)).

(** [self.files.append(item)] and, for a non-empty suffix,
    [self.file_extensions.add(item.suffix)]. *)
Definition add_file (item : Path) (self : t) : t :=
  {| self_project_path := self_project_path self;
     self_files := self_files self ++ [item];
     self_directories := self_directories self;
     self_file_extensions :=
       if String.eqb (PurePath.suffix item) EmptyString
       then self_file_extensions self
       else {[ PurePath.suffix item ]} ∪ self_file_extensions self |}.

(** [self.directories.append(item)] *)
Definition add_directory (item : Path) (self : t) : t :=
  {| self_project_path := self_project_path self;
     self_files := self_files self;
     self_directories := self_directories self ++ [item];
     self_file_extensions := self_file_extensions self |}.

(** How one round of the loop of [_scan_recursive] ends: the loop goes on
    to the next entry, or [PermissionError] is raised. Either way the
    scanner keeps what it has recorded. *)
Inductive round : Type :=
| Next (self : t)
| Raised (self : t).

Definition state_of (r : round) : t :=
  match r with
  | Next self => self
  | Raised self => self
  end.

Definition is_raised (r : round) : bool :=
  match r with
  | Next _ => false
  | Raised _ => true
  end.

Section Loop.
Variable body : t -> entry -> round.

(** [try: for item in items: body  except PermissionError: pass]: an
    exception ends the loop, and the entries after it are not looked at. *)
Fixpoint loop (items : list entry) (self : t) : t :=
  match items with
  | [] => self
  | item :: rest =>
      match body self item with
      | Next self => loop rest self
      | Raised self => self
      end
  end.
End Loop.

(** One round of the loop of [_scan_recursive] over the entries of
    [path], which is at depth [depth] and can be searched or not. The two
    tests on the name come first and need no [stat]; [item.is_file()] is
    the first to call it. The call on a sub-directory, which has its own
    [try], is unfolded in place (see [scan_item_dir]). *)
Fixpoint scan_item (max_depth depth : nat) (searchable : bool) (path : Path)
    (self : t) (e : entry) : round :=
  let name := entry_name e in
  let item := PurePath.child path name in
  if ignored name then Next self
  else if hidden name then Next self
  else if negb searchable then Raised self
  else
    match e with
    | File _ => Next (add_file item self)
    | Dir _ listable searchable' children =>
        let self := add_directory item self in
        Next (if max_depth <? S depth then self
              else if listable
                   then loop (scan_item max_depth (S depth) searchable' item)
                             children self
                   else self)
    | Other _ => Next self
    | Denied _ => Raised self
    end.

(** [_scan_recursive(path, depth, max_depth)] on a directory that holds
    [items]; [iterdir] raises [PermissionError] when [listable] is false. *)
Definition _scan_recursive (path : Path) (listable searchable : bool)
    (items : list entry) (depth max_depth : nat) (self : t) : t :=
  if max_depth <? depth then self
  else if listable then loop (scan_item max_depth depth searchable path) items self
  else self.

Definition default_max_depth : nat := 10.

(** The sort key of [_generate_tree]: [(len(p.parts), str(p))]. *)
Definition tree_key_leb (p q : Path) : bool :=
  (length p <? length q) ||
  ((length p =? length q) && Str.leb (PurePath.str p) (PurePath.str q)).

(** [_generate_tree]. Every recorded file extends the project path
    ([scan_files_extend_root]), so [relative_to] does not raise. *)
Definition _generate_tree (max_files : nat) (self : t) : string :=
  let sorted_files := take max_files (sorted tree_key_leb (self_files self)) in
  let dir_structure : gmap Path (list string) :=
    fold_left
      (fun ds file =>
         let rel_path := PurePath.relative_to file (self_project_path self) in
         let dir_path := PurePath.parent rel_path in
         <[ dir_path := default [] (ds !! dir_path) ++ [PurePath.name rel_path] ]> ds)
      sorted_files ∅ in
  let head := [PurePath.name (self_project_path self) +:+ "/"] in
  let body :=
    flat_map
      (fun dir_path : Path =>
         let top := String.eqb (PurePath.str dir_path) "." in
         (if top then []
          else [Str.repeat "  " (length dir_path) +:+ "├── "
                  +:+ PurePath.name dir_path +:+ "/"])
         ++ map (fun filename =>
                   Str.repeat "  " (length dir_path + (if top then 0 else 1))
                     +:+ "├── " +:+ filename)
                (sorted Str.leb (default [] (dir_structure !! dir_path))))
      (sorted PurePath.leb (elements (dom dir_structure))) in
  let more :=
    if max_files <? length (self_files self)
    then ["  ... and " +:+ Str.of_nat (length (self_files self) - max_files)
            +:+ " more files"]
    else [] in
  Str.join Str.nl (head ++ body ++ more).

Definition default_max_files : nat := 50.

(** The table of [_find_special_files], in the order it is written. *)
Definition important : list (string * list string) := [
  ("readme", ["README.md"; "README.rst"; "README.txt"; "README"]);
  ("license", ["LICENSE"; "LICENSE.md"; "LICENSE.txt"; "COPYING"]);
  ("requirements", ["requirements.txt"; "Pipfile"; "pyproject.toml"; "setup.py"]);
  ("package", ["package.json"; "Cargo.toml"; "go.mod"; "pom.xml"; "build.gradle"]);
  ("config", [".env.example"; "config.yml"; "config.json"; "settings.py"]);
  ("docker", ["Dockerfile"; "docker-compose.yml"; ".dockerignore"]);
  ("ci", [".github/workflows"; ".gitlab-ci.yml"; ".travis.yml"; "Jenkinsfile"]);
  ("makefile", ["Makefile"; "makefile"]);
  ("changelog", ["CHANGELOG.md"; "CHANGELOG.rst"; "HISTORY.md"])
].

(** [(self.project_path / filename).exists()]; [None] when it raises
    [PermissionError]. *)
Definition candidate_exists (pr : project) (filename : string) : option bool :=
  exists_under (root_searchable pr) (root_entries pr) (PurePath.parse_parts filename).

(** The inner loop of [_find_special_files] with its [break]: the first
    of the names that exists, if there is one. [None] when a test raises
    [PermissionError] before a name is found. *)
Fixpoint first_existing (pr : project) (filenames : list string)
  : option (option string) :=
  match filenames with
  | [] => Some None
  | filename :: rest =>
      match candidate_exists pr filename with
      | None => None
      | Some true => Some (Some filename)
      | Some false => first_existing pr rest
      end
  end.

(** [_find_special_files]: per category the first candidate that exists.
    [None] when it raises [PermissionError], which nothing in it catches. *)
Definition _find_special_files (pr : project) : option (gmap string Path) :=
  fold_left
    (fun (special : option (gmap string Path)) (row : string * list string) =>
       match special with
       | None => None
       | Some special =>
           match first_existing pr (snd row) with
           | None => None
           | Some (Some filename) =>
               Some (<[ fst row := PurePath.joinpath (root_path pr) filename ]> special)
           | Some None => Some special
           end
       end)
    important (Some ∅).

(** The scanner after [_scan_recursive(self.project_path)]. *)
Definition scanned (pr : project) : t :=
  _scan_recursive (root_path pr) (root_listable pr) (root_searchable pr)
    (root_entries pr) 0 default_max_depth (init (root_path pr)).

(** The dict of [scan] on a fresh scanner. Its last entry is the call of
    [_find_special_files]; where that call raises, [scan] raises with it
    and returns no dict (see [scan_outcome]), and [scan] stands for what
    the scanner holds by then, with no special file. *)
Definition scan (pr : project) : ScanResult :=
  let self := scanned pr in
  {| project_path := self_project_path self;
     project_name := PurePath.name (self_project_path self);
     files := self_files self;
     directories := self_directories self;
     file_count := length (self_files self);
     dir_count := length (self_directories self);
     extensions := sorted Str.leb (elements (self_file_extensions self));
     file_tree := _generate_tree default_max_files self;
     special_files := default ∅ (_find_special_files pr) |}.

(** [scan] with the exception it lets through: the dict, or [None] when
    [_find_special_files] raises [PermissionError]. *)
Definition scan_outcome (pr : project) : option ScanResult :=
  match _find_special_files pr with
  | Some _ => Some (scan pr)
  | None => None
  end.

End ProjectScanner.

(** ** detector.py *)

(** What the detector reads from the two manifest files. Both reads sit in
    a [try] whose handler swallows every exception, so each is an optional
    value: [None] when reading or parsing raises. *)
Record disk : Type := {
  (** the keys of [{**data.get('dependencies', {}),
      **data.get('devDependencies', {})}] for
      [data = json.loads(f.read_text())] *)
  manifest_dependencies : Path -> option (gset string);
  (** [f.read_text().lower()] *)
  text_lower : Path -> option string
}.

Module TechDetector.

Definition LANGUAGE_MAP : gmap string string := list_to_map [
  (".py", "Python");
  (".js", "JavaScript");
  (".ts", "TypeScript");
  (".jsx", "React");
  (".tsx", "React");
  (".java", "Java");
  (".c", "C");
  (".cpp", "C++");
  (".cs", "C#");
  (".go", "Go");
  (".rs", "Rust");
  (".rb", "Ruby");
  (".php", "PHP");
  (".swift", "Swift");
  (".kt", "Kotlin");
  (".scala", "Scala");
  (".r", "R");
  (".m", "Objective-C");
  (".sh", "Shell");
  (".html", "HTML");
  (".css", "CSS");
  (".scss", "SASS");
  (".vue", "Vue");
  (".sql", "SQL");
  (".md", "Markdown")
].

Definition FRAMEWORK_INDICATORS : list (string * list string) := [
  ("React", ["package.json"; "react"]);
  ("Next.js", ["next.config.js"; "next.config.ts"]);
  ("Vue.js", ["vue.config.js"; "nuxt.config.js"]);
  ("Angular", ["angular.json"]);
  ("Django", ["manage.py"; "settings.py"]);
  ("Flask", ["app.py"; "flask"]);
  ("FastAPI", ["main.py"; "fastapi"]);
  ("Express", ["express"]);
  ("Node.js", ["package.json"]);
  ("Docker", ["Dockerfile"; "docker-compose.yml"]);
  ("Kubernetes", [".yaml"; "k8s"]);
  ("Terraform", [".tf"]);
  ("Streamlit", ["streamlit"]);
  ("Pytest", ["pytest.ini"; "conftest.py"]);
  ("Jest", ["jest.config.js"])
].

(** [any(sub in str(f) for f in self.files)] *)
Definition any_path_contains (sub : string) (sr : ScanResult) : bool :=
  existsb (fun f => Str.contains sub (PurePath.str f)) (files sr).

(** [_detect_languages] *)
Definition _detect_languages (sr : ScanResult) : list string :=
  let languages : gset string :=
    fold_left
      (fun (languages : gset string) ext =>
         match LANGUAGE_MAP !! ext with
         | Some lang => {[ lang ]} ∪ languages
         | None => languages
         end)
      (extensions sr) ∅ in
  sorted Str.leb (elements languages).

(** [x in deps] guarding [frameworks.add(name)] *)
Definition when (b : bool) (name : string) : gset string :=
  if b then {[ name ]} else ∅.

(** [_parse_package_json] *)
Definition _parse_package_json (d : disk) (sr : ScanResult) : gset string :=
  match special_files sr !! "package" with
  | None => ∅
  | Some package_file =>
      match manifest_dependencies d package_file with
      | None => ∅
      | Some deps =>
          when (bool_decide ("react" ∈ deps)) "React"
          ∪ when (bool_decide ("next" ∈ deps)) "Next.js"
          ∪ when (bool_decide ("vue" ∈ deps)) "Vue.js"
          ∪ when (bool_decide ("express" ∈ deps)) "Express"
          ∪ when (bool_decide ("@angular/core" ∈ deps)) "Angular"
      end
  end.

(** [_parse_requirements] *)
Definition _parse_requirements (d : disk) (sr : ScanResult) : gset string :=
  match special_files sr !! "requirements" with
  | None => ∅
  | Some req_file =>
      match text_lower d req_file with
      | None => ∅
      | Some content =>
          when (Str.contains "django" content) "Django"
          ∪ when (Str.contains "flask" content) "Flask"
          ∪ when (Str.contains "fastapi" content) "FastAPI"
          ∪ when (Str.contains "streamlit" content) "Streamlit"
          ∪ when (Str.contains "pytest" content) "Pytest"
      end
  end.

(** The first loop of [_detect_frameworks]: a framework is added at its
    first indicator that occurs in the text of some path. *)
Definition indicated_frameworks (sr : ScanResult) : gset string :=
  fold_left
    (fun (frameworks : gset string) (row : string * list string) =>
       if existsb (fun indicator => any_path_contains indicator sr) (snd row)
       then {[ fst row ]} ∪ frameworks
       else frameworks)
    FRAMEWORK_INDICATORS ∅.

(** [_detect_frameworks] *)
Definition _detect_frameworks (d : disk) (sr : ScanResult) : list string :=
  let frameworks := indicated_frameworks sr in
  let frameworks :=
    if has_key "package" (special_files sr)
    then frameworks ∪ _parse_package_json d sr else frameworks in
  let frameworks :=
    if has_key "requirements" (special_files sr)
    then frameworks ∪ _parse_requirements d sr else frameworks in
  sorted Str.leb (elements frameworks).

(** The table of [_detect_package_managers], in the order it is written. *)
Definition indicators : list (string * list string) := [
  ("pip", ["requirements.txt"; "setup.py"]);
  ("poetry", ["pyproject.toml"; "poetry.lock"]);
  ("npm", ["package.json"; "package-lock.json"]);
  ("yarn", ["yarn.lock"]);
  ("pnpm", ["pnpm-lock.yaml"]);
  ("cargo", ["Cargo.toml"]);
  ("go mod", ["go.mod"]);
  ("maven", ["pom.xml"]);
  ("gradle", ["build.gradle"])
].

(** [{f.name for f in self.files}] *)
Definition file_names (sr : ScanResult) : gset string :=
  list_to_set (map PurePath.name (files sr)).

(** [_detect_package_managers] *)
Definition _detect_package_managers (sr : ScanResult) : list string :=
  map fst
    (List.filter
       (fun row : string * list string =>
          existsb (fun f => bool_decide (f ∈ file_names sr)) (snd row))
       indicators).

(** [_detect_tools] *)
Definition _detect_tools (sr : ScanResult) : list string :=
  (if has_key "docker" (special_files sr) then ["Docker"] else [])
  ++ (if has_key "ci" (special_files sr) then ["CI/CD"] else [])
  ++ (if any_path_contains ".yaml" sr || any_path_contains ".yml" sr
      then if any_path_contains "k8s" sr || any_path_contains "kubernetes" sr
           then ["Kubernetes"] else []
      else [])
  ++ (if has_key "makefile" (special_files sr) then ["Make"] else []).

(** [lang_counts[lang] = lang_counts.get(lang, 0) + 1] on a dict, which
    keeps its keys in the order they were first set. *)
Fixpoint count_language (lang : string) (lang_counts : list (string * nat))
  : list (string * nat) :=
  match lang_counts with
  | [] => [(lang, 1)]
  | (l, c) :: rest =>
      if String.eqb l lang then (l, S c) :: rest
      else (l, c) :: count_language lang rest
  end.

(** The loop of [_get_primary_language]. *)
Definition lang_counts (sr : ScanResult) : list (string * nat) :=
  fold_left
    (fun counts file =>
       match LANGUAGE_MAP !! PurePath.suffix file with
       | Some lang => count_language lang counts
       | None => counts
       end)
    (files sr) [].

(** [max(items, key=lambda x: x[1])] on a non-empty sequence starting with
    [best]: a later item replaces the best so far only when its count is
    strictly larger. *)
Definition max_count (best : string * nat) (items : list (string * nat))
  : string * nat :=
  fold_left (fun best x => if snd best <? snd x then x else best) items best.

(** [_get_primary_language] *)
Definition _get_primary_language (sr : ScanResult) : string :=
  match lang_counts sr with
  | [] => "Unknown"
  | first :: rest => fst (max_count first rest)
  end.

(** [_has_tests] *)
Definition _has_tests (sr : ScanResult) : bool :=
  let test_indicators := ["test"; "tests"; "spec"; "__tests__"; "pytest"; "jest"] in
  existsb
    (fun f => existsb (fun indicator => Str.contains indicator (Str.lower (PurePath.str f)))
                      test_indicators)
    (files sr).

(** [_has_docs] *)
Definition _has_docs (sr : ScanResult) : bool :=
  let doc_indicators := ["docs"; "documentation"; "doc"; "README"] in
  existsb
    (fun f => existsb (fun indicator => Str.contains indicator (PurePath.str f))
                      doc_indicators)
    (files sr).

(** [_has_ci] *)
Definition _has_ci (sr : ScanResult) : bool := has_key "ci" (special_files sr).

(** [detect] *)
Definition detect (d : disk) (sr : ScanResult) : TechInfo :=
  {| languages := _detect_languages sr;
     frameworks := _detect_frameworks d sr;
     package_managers := _detect_package_managers sr;
     tools := _detect_tools sr;
     primary_language := _get_primary_language sr;
     has_tests := _has_tests sr;
     has_docs := _has_docs sr;
     has_ci := _has_ci sr |}.

End TechDetector.

(** ** template.py *)

Module TemplateGenerator.

(** The attributes of a generator object. *)
Record t : Type := {
  self_project_name : string;
  self_scan_results : ScanResult;
  self_tech_info : TechInfo
}.

(** [x in l] for a list of strings. *)
Definition mem (x : string) (l : list string) : bool :=
  existsb (String.eqb x) l.

(** [self.project_name.lower().replace(' ', '-')] *)
Definition project_slug (self : t) : string :=
  Str.replace " "%char "-" (Str.lower (self_project_name self)).

(** [_get_language_color] *)
Definition _get_language_color (language : string) : string :=
  let colors : gmap string string := list_to_map [
    ("Python", "3776AB");
    ("JavaScript", "F7DF1E");
    ("TypeScript", "3178C6");
    ("Java", "ED8B00");
    ("Go", "00ADD8");
    ("Rust", "CE412B");
    ("C++", "00599C");
    ("C#", "239120");
    ("Ruby", "CC342D");
    ("PHP", "777BB4");
    ("Swift", "FA7343");
    ("Kotlin", "7F52FF");
    ("HTML", "E34F26");
    ("CSS", "1572B6")
  ] in
  default "555555" (colors !! language).

(** [_get_framework_color] *)
Definition _get_framework_color (framework : string) : string :=
  let colors : gmap string string := list_to_map [
    ("React", "61DAFB");
    ("Next.js", "000000");
    ("Vue.js", "4FC08D");
    ("Django", "092E20");
    ("Flask", "000000");
    ("FastAPI", "009688");
    ("Express", "000000");
    ("Streamlit", "FF4B4B");
    ("Docker", "2496ED")
  ] in
  default "6366F1" (colors !! framework).

(** [_generate_header] *)
Definition _generate_header (self : t) : string :=
  (Str.multiline [
      "<div align=" +:+ Str.dq +:+ "center" +:+ Str.dq +:+ ">";
      EmptyString;
      "# 🚀 " +:+ self_project_name self;
      EmptyString;
      "<p align=" +:+ Str.dq +:+ "center" +:+ Str.dq +:+ ">";
      "  <strong>✨ Auto-generated README - Customize me! ✨</strong>";
      "</p>";
      EmptyString;
      "</div>"
    ]).

(** [_generate_badges]. The first test is on the truth value of the
    primary language, that is, on the string being non-empty. *)
Definition _generate_badges (self : t) : string :=
  let project_slug := project_slug self in
  let badges :=
    (if String.eqb (primary_language (self_tech_info self)) EmptyString then []
     else
       let lang := primary_language (self_tech_info self) in
       let color := _get_language_color lang in
       [("![" +:+ lang +:+ "](https://img.shields.io/badge/" +:+ lang +:+ "-" +:+ color +:+ "?style=for-the-badge&logo=" +:+ Str.lower lang +:+ "&logoColor=white)")])
    ++ (if has_key "license" (special_files (self_scan_results self))
        then ["![License](https://img.shields.io/badge/license-MIT-blue?style=for-the-badge)"] else [])
    ++ [("![GitHub stars](https://img.shields.io/github/stars/yourusername/" +:+ project_slug +:+ "?style=for-the-badge)");
        ("![GitHub forks](https://img.shields.io/github/forks/yourusername/" +:+ project_slug +:+ "?style=for-the-badge)");
        ("![GitHub issues](https://img.shields.io/github/issues/yourusername/" +:+ project_slug +:+ "?style=for-the-badge)")]
    ++ (if has_ci (self_tech_info self) then ["![Build](https://img.shields.io/badge/build-passing-brightgreen?style=for-the-badge)"] else [])
    ++ (if has_tests (self_tech_info self) then ["![Coverage](https://img.shields.io/badge/coverage-85%25-green?style=for-the-badge)"] else []) in
  (Str.multiline [
      "<div align=" +:+ Str.dq +:+ "center" +:+ Str.dq +:+ ">";
      EmptyString;
      Str.join " " (take 4 badges);
      EmptyString;
      (if 4 <? length badges then Str.join " " (drop 4 badges) else EmptyString);
      EmptyString;
      "</div>"
    ]).

(** [_generate_highlights] *)
Definition _generate_highlights (self : t) : string :=
  let ti := self_tech_info self in
  let highlights :=
    (if has_tests ti then ["🧪 **Test Coverage** - Comprehensive test suite included"] else [])
    ++ (if has_ci ti then ["🔄 **CI/CD** - Automated testing and deployment"] else [])
    ++ (if mem "Docker" (tools ti) then ["🐳 **Containerized** - Docker support for easy deployment"] else [])
    ++ (if has_docs ti then ["📚 **Well Documented** - Clear documentation and examples"] else [])
    ++ (if 1 <? length (languages ti) then [("🌐 **Multi-language** - Uses " +:+ Str.of_nat (length (languages ti)) +:+ " programming languages")] else []) in
  let highlights :=
    match highlights with
    | [] => ["⚡ **Fast & Efficient** - Optimized for performance";
             "🎨 **Modern Stack** - Built with latest technologies";
             "🔧 **Customizable** - Easy to extend and modify"]
    | _ :: _ => highlights
    end in
  Str.join Str.nl (map (fun h => ("- " +:+ h)) highlights).

(** [_generate_description] *)
Definition _generate_description (self : t) : string :=
  let primary_lang := primary_language (self_tech_info self) in
  let frameworks := frameworks (self_tech_info self) in
  let description := ("A powerful " +:+ primary_lang +:+ " project") in
  let description :=
    match frameworks with
    | [] => description
    | _ :: _ => description +:+ (" built with **" +:+ Str.join ", " (take 3 frameworks) +:+ "**")
    end in
  let description := description +:+ ". 🎯" in
  (Str.multiline [
      "## 📖 About";
      EmptyString;
      description;
      EmptyString;
      "> ⚠️ **Note:** This README was auto-generated using [README Generator](https://github.com/alxgraphy/readme-generator). ";
      "> Please customize it with your project's actual description, screenshots, and details!";
      EmptyString;
      "### ✨ Highlights";
      EmptyString;
      _generate_highlights self
    ]).

(** [_generate_demo_section] *)
Definition _generate_demo_section (self : t) : string :=
  (Str.multiline [
      "## 🎬 Demo";
      EmptyString;
      "<div align=" +:+ Str.dq +:+ "center" +:+ Str.dq +:+ ">";
      EmptyString;
      "### 📸 Screenshots";
      EmptyString;
      "<table>";
      "  <tr>";
      "    <td><img src=" +:+ Str.dq +:+ "screenshots/demo1.png" +:+ Str.dq +:+ " alt=" +:+ Str.dq +:+ "Screenshot 1" +:+ Str.dq +:+ " width=" +:+ Str.dq +:+ "400" +:+ Str.dq +:+ "/></td>";
      "    <td><img src=" +:+ Str.dq +:+ "screenshots/demo2.png" +:+ Str.dq +:+ " alt=" +:+ Str.dq +:+ "Screenshot 2" +:+ Str.dq +:+ " width=" +:+ Str.dq +:+ "400" +:+ Str.dq +:+ "/></td>";
      "  </tr>";
      "  <tr>";
      "    <td align=" +:+ Str.dq +:+ "center" +:+ Str.dq +:+ "><em>Main Interface</em></td>";
      "    <td align=" +:+ Str.dq +:+ "center" +:+ Str.dq +:+ "><em>Feature Showcase</em></td>";
      "  </tr>";
      "</table>";
      EmptyString;
      "> 🎥 **[Live Demo](#)** | 📹 **[Video Tutorial](#)**";
      EmptyString;
      "</div>";
      EmptyString;
      "---"
    ]).

(** The body of the loop of [_create_features_grid] without the row
    break: one cell. The features are the fixed texts of
    [_generate_features], each with at least one word. *)
Definition feature_cell (feature : string) : string :=
  let emoji := List.hd EmptyString (Str.split_ws feature) in
  let text := Str.join " " (List.tl (Str.split_ws feature)) in
  (Str.multiline [
      "<td width=" +:+ Str.dq +:+ "50%" +:+ Str.dq +:+ ">";
      EmptyString;
      "**" +:+ emoji +:+ " " +:+ List.hd EmptyString (Str.split_str " - " text) +:+ "**";
      EmptyString;
      EmptyString
    ])
  +:+ (if Str.contains " - " text then (Str.multiline [
      "<br/>" +:+ List.nth 1 (Str.split_str " - " text) EmptyString;
      EmptyString;
      EmptyString
    ]) else EmptyString)
  +:+ (Str.multiline [
      "</td>";
      EmptyString
    ]).

(** The loop of [_create_features_grid], from index [i] on. *)
Fixpoint features_cells (i : nat) (features : list string) : string :=
  match features with
  | [] => EmptyString
  | feature :: rest =>
      (if (0 <? i) && (Nat.modulo i 2 =? 0) then (Str.multiline [
      "</tr>";
      "<tr>";
      EmptyString
    ]) else EmptyString)
      +:+ feature_cell feature
      +:+ features_cells (S i) rest
  end.

(** [_create_features_grid] *)
Definition _create_features_grid (features : list string) : string :=
  (Str.multiline [
      "<table>";
      "<tr>";
      EmptyString
    ])
  +:+ features_cells 0 features
  +:+ (if negb (Nat.modulo (length features) 2 =? 0) then (Str.multiline [
      "<td></td>";
      EmptyString
    ]) else EmptyString)
  +:+ (Str.multiline [
      "</tr>";
      "</table>"
    ]).

(** [_generate_features] *)
Definition _generate_features (self : t) : string :=
  let ti := self_tech_info self in
  let features :=
    (if has_tests ti then ["✅ Comprehensive test coverage with automated testing"] else [])
    ++ (if has_ci ti then ["🔄 Continuous Integration and Deployment pipeline"] else [])
    ++ (if has_docs ti then ["📚 Well-documented codebase with inline comments"] else [])
    ++ (if mem "Docker" (tools ti) then ["🐳 Docker containerization for easy deployment"] else [])
    ++ (if mem "Kubernetes" (tools ti) then ["☸️ Kubernetes orchestration support"] else []) in
  let features :=
    if length features <? 3
    then features ++ ["🚀 High performance and scalability";
                      "🔒 Secure by design with best practices";
                      "🎨 Clean and maintainable code architecture";
                      "⚡ Fast development with hot reload";
                      "🌍 Cross-platform compatibility"]
    else features in
  let features := take 6 features in
  let features_grid := _create_features_grid features in
  (Str.multiline [
      "## ✨ Features";
      EmptyString;
      features_grid
    ]).

(** [_generate_tech_stack] *)
Definition _generate_tech_stack (self : t) : string :=
  let ti := self_tech_info self in
  let lines :=
    ["## 🛠️ Tech Stack"]
    ++ (match languages ti with
        | [] => []
        | _ :: _ =>
            [(Str.multiline [
      EmptyString;
      "### Languages"
    ]);
             Str.join " "
               (map (fun lang =>
                       let color := _get_language_color lang in
                       ("![" +:+ lang +:+ "](https://img.shields.io/badge/" +:+ lang +:+ "-" +:+ color +:+ "?style=flat-square&logo=" +:+ Str.lower lang +:+ "&logoColor=white)"))
                    (languages ti))]
        end)
    ++ (match frameworks ti with
        | [] => []
        | _ :: _ =>
            [(Str.multiline [
      EmptyString;
      "### Frameworks & Libraries"
    ]);
             Str.join " "
               (map (fun fw =>
                       let color := _get_framework_color fw in
                       ("![" +:+ fw +:+ "](https://img.shields.io/badge/" +:+ fw +:+ "-" +:+ color +:+ "?style=flat-square&logo=" +:+ Str.replace " "%char EmptyString (Str.replace "."%char EmptyString (Str.lower fw)) +:+ "&logoColor=white)"))
                    (frameworks ti))]
        end)
    ++ (match tools ti with
        | [] => []
        | _ :: _ =>
            [(Str.multiline [
      EmptyString;
      "### Tools & Platforms"
    ]);
             Str.join " "
               (map (fun tool =>
                       let color := "2496ED" in
                       ("![" +:+ tool +:+ "](https://img.shields.io/badge/" +:+ tool +:+ "-" +:+ color +:+ "?style=flat-square&logo=" +:+ Str.lower tool +:+ "&logoColor=white)"))
                    (tools ti))]
        end) in
  if 1 <? length lines then Str.join Str.nl lines else EmptyString.

(** [_generate_quick_start] *)
Definition _generate_quick_start (self : t) : string :=
  let managers := package_managers (self_tech_info self) in
  let quick_commands :=
    ["# Clone the repository";
     "git clone https://github.com/yourusername/" +:+ project_slug self +:+ ".git";
     EmptyString]
    ++ (if mem "npm" managers then
          ["# Install dependencies"; "npm install"; EmptyString; "# Run the project"; "npm start"]
        else if mem "pip" managers then
          ["# Install dependencies"; "pip install -r requirements.txt"; EmptyString; "# Run the project"; "python main.py"]
        else
          ["# Follow installation instructions below"]) in
  (Str.multiline [
      "## ⚡ Quick Start";
      EmptyString;
      "```bash";
      Str.join Str.nl quick_commands;
      "```"
    ]).

(** [_generate_installation] *)
Definition _generate_installation (self : t) : string :=
  let ti := self_tech_info self in
  let managers := package_managers ti in
  let primary_lang := primary_language ti in
  let prereqs :=
    (if mem "Node.js" (frameworks ti) || mem "npm" managers then ["- Node.js 16.x or higher"] else [])
    ++ (if String.eqb primary_lang "Python" then ["- Python 3.8 or higher"] else [])
    ++ (if mem "Docker" (tools ti) then ["- Docker and Docker Compose"] else [])
    ++ (if mem "go mod" managers then ["- Go 1.20 or higher"] else []) in
  let prereqs :=
    match prereqs with
    | [] => [("- " +:+ primary_lang +:+ " (latest stable version)")]
    | _ :: _ => prereqs
    end in
  Str.join Str.nl
    (["## 📦 Installation";
      (Str.multiline [
      EmptyString;
      "### Prerequisites"
    ]);
      Str.join Str.nl prereqs;
      (Str.multiline [
      EmptyString;
      "### Step-by-Step Guide"
    ]);
      (Str.multiline [
      EmptyString;
      "**1️⃣ Clone the repository**"
    ]);
      "```bash";
      "git clone https://github.com/yourusername/" +:+ project_slug self +:+ ".git";
      "cd " +:+ project_slug self;
      "```"]
     ++ (if mem "pip" managers then
           [(Str.multiline [
      EmptyString;
      "**2️⃣ Create virtual environment (recommended)**"
    ]); "```bash"; "python -m venv venv";
            "source venv/bin/activate  # On Windows: venv\Scripts\activate";
            "```";
            (Str.multiline [
      EmptyString;
      "**3️⃣ Install dependencies**"
    ]); "```bash"; "pip install -r requirements.txt"; "```"]
         else if mem "poetry" managers then
           [(Str.multiline [
      EmptyString;
      "**2️⃣ Install dependencies with Poetry**"
    ]); "```bash"; "poetry install"; "```"]
         else if mem "npm" managers then
           [(Str.multiline [
      EmptyString;
      "**2️⃣ Install dependencies**"
    ]); "```bash"; "npm install"; "# or"; "yarn install"; "```"]
         else if mem "cargo" managers then
           [(Str.multiline [
      EmptyString;
      "**2️⃣ Build the project**"
    ]); "```bash"; "cargo build --release"; "```"]
         else if mem "go mod" managers then
           [(Str.multiline [
      EmptyString;
      "**2️⃣ Download dependencies**"
    ]); "```bash"; "go mod download"; "```"]
         else [])
     ++ [(Str.multiline [
      EmptyString;
      "**4️⃣ Set up environment variables**"
    ]); "```bash"; "cp .env.example .env"; "# Edit .env with your configuration"; "```"]).

(** [_generate_usage] *)
Definition _generate_usage (self : t) : string :=
  let primary_lang := primary_language (self_tech_info self) in
  let frameworks := frameworks (self_tech_info self) in
  Str.join Str.nl
    (["## 🚀 Usage";
      (Str.multiline [
      EmptyString;
      "### Basic Usage"
    ])]
     ++ (if mem "Django" frameworks then
           ["```bash"; "# Run migrations"; "python manage.py migrate"; EmptyString; "# Create superuser"; "python manage.py createsuperuser"; EmptyString;
            "# Run development server"; "python manage.py runserver"; "```";
            (Str.multiline [
      EmptyString;
      "Visit `http://localhost:8000` in your browser"
    ])]
         else if mem "Flask" frameworks || mem "FastAPI" frameworks then
           ["```bash"; "# Run the application"; "python app.py"; "# or"; "uvicorn main:app --reload  # For FastAPI"; "```";
            (Str.multiline [
      EmptyString;
      "API will be available at `http://localhost:8000`"
    ])]
         else if mem "Streamlit" frameworks then
           ["```bash"; "streamlit run app.py"; "```";
            (Str.multiline [
      EmptyString;
      "App will open in your browser automatically"
    ])]
         else if mem "React" frameworks || mem "Next.js" frameworks then
           ["```bash"; "# Development mode"; "npm run dev"; EmptyString; "# Build for production"; "npm run build"; EmptyString;
            "# Start production server"; "npm start"; "```";
            (Str.multiline [
      EmptyString;
      "Open `http://localhost:3000`"
    ])]
         else
           ["```bash"; "# Run the application";
            (if String.eqb primary_lang "Python" then "python main.py"
             else if String.eqb primary_lang "Go" then "go run main.go"
             else if String.eqb primary_lang "Rust" then "cargo run"
             else if String.eqb primary_lang "Node.js"
                     || String.eqb primary_lang "JavaScript" then "npm start"
             else "# See documentation for usage instructions");
            "```"])
     ++ [(Str.multiline [
      EmptyString;
      "### Examples"
    ]); (Str.multiline [
      EmptyString;
      "```bash"
    ]); "# Example 1: Basic usage"; "# Add your example here"; EmptyString; "# Example 2: Advanced usage"; "# Add your example here"; "```"]).

(** [_explain_structure] *)
Definition _explain_structure (self : t) : string :=
  let directories := directories (self_scan_results self) in
  let explanations :=
    (if existsb (fun d => Str.contains "src" (PurePath.str d)) directories
     then ["- **`src/`** - Source code and main application logic"] else [])
    ++ (if existsb (fun d => Str.contains "test" (Str.lower (PurePath.str d))) directories
        then ["- **`tests/`** - Test files and test utilities"] else [])
    ++ (if existsb (fun d => Str.contains "doc" (Str.lower (PurePath.str d))) directories
        then ["- **`docs/`** - Documentation files"] else [])
    ++ (if existsb (fun d => Str.contains "config" (Str.lower (PurePath.str d))) directories
        then ["- **`config/`** - Configuration files"] else []) in
  let explanations :=
    match explanations with
    | [] => ["- See code structure above for file organization"]
    | _ :: _ => explanations
    end in
  Str.join Str.nl explanations.

(** [_generate_project_structure] *)
Definition _generate_project_structure (self : t) : string :=
  let tree := file_tree (self_scan_results self) in
  (Str.multiline [
      "## 📁 Project Structure";
      EmptyString;
      "```";
      tree;
      "```";
      EmptyString;
      "### Key Directories";
      EmptyString;
      _explain_structure self
    ]).

(** [_generate_roadmap] *)
Definition _generate_roadmap (self : t) : string :=
  (Str.multiline [
      "## 🗺️ Roadmap";
      EmptyString;
      "- [x] Initial release";
      "- [ ] Add feature X";
      "- [ ] Improve performance";
      "- [ ] Add more documentation";
      "- [ ] Add integration tests";
      "- [ ] Release v2.0";
      EmptyString;
      "See the [open issues](https://github.com/yourusername/project/issues) for a full list of proposed features."
    ]).

(** [_generate_contributing] *)
Definition _generate_contributing (self : t) : string :=
  (Str.multiline [
      "## 🤝 Contributing";
      EmptyString;
      "Contributions make the open source community amazing! Any contributions you make are **greatly appreciated**.";
      EmptyString;
      "### How to Contribute";
      EmptyString;
      "1. **Fork** the Project";
      "2. **Create** your Feature Branch (`git checkout -b feature/AmazingFeature`)";
      "3. **Commit** your Changes (`git commit -m 'Add some AmazingFeature'`)";
      "4. **Push** to the Branch (`git push origin feature/AmazingFeature`)";
      "5. **Open** a Pull Request";
      EmptyString;
      "### Development Guidelines";
      EmptyString;
      "- Write clear, commented code";
      "- Follow the existing code style";
      "- Add tests for new features";
      "- Update documentation as needed";
      EmptyString;
      "### Code of Conduct";
      EmptyString;
      "Please read our [Code of Conduct](CODE_OF_CONDUCT.md) before contributing."
    ]).

(** [_generate_license] *)
Definition _generate_license (self : t) : string :=
  if has_key "license" (special_files (self_scan_results self))
  then (Str.multiline [
      "## 📄 License";
      EmptyString;
      "Distributed under the MIT License. See `LICENSE` file for more information."
    ])
  else (Str.multiline [
      "## 📄 License";
      EmptyString;
      "This project is unlicensed. Please add a LICENSE file to specify terms of use.";
      EmptyString;
      "Recommended licenses:";
      "- [MIT License](https://opensource.org/licenses/MIT) - Permissive";
      "- [GPL v3](https://www.gnu.org/licenses/gpl-3.0.en.html) - Copyleft";
      "- [Apache 2.0](https://opensource.org/licenses/Apache-2.0) - Permissive with patent grant"
    ]).

(** [_generate_acknowledgments] *)
Definition _generate_acknowledgments (self : t) : string :=
  (Str.multiline [
      "## 🙏 Acknowledgments";
      EmptyString;
      "- Thanks to all contributors";
      "- Inspired by awesome open source projects";
      "- Built with amazing tools and frameworks"
    ]).

(** [_generate_footer] *)
Definition _generate_footer (self : t) : string :=
  (Str.multiline [
      "---";
      EmptyString;
      "<div align=" +:+ Str.dq +:+ "center" +:+ Str.dq +:+ ">";
      EmptyString;
      "**⭐ Star this repo if you find it helpful! ⭐**";
      EmptyString;
      "Made with ❤️ by [Your Name](https://github.com/yourusername)";
      EmptyString;
      "**[⬆ Back to Top](#-project-name)**";
      EmptyString;
      "*Auto-generated using [README Generator](https://github.com/alxgraphy/readme-generator)*";
      EmptyString;
      "</div>"
    ]).

(** The list [sections] of [generate]. *)
Definition sections (self : t) : list string := [
  _generate_header self;
  _generate_badges self;
  _generate_description self;
  _generate_demo_section self;
  _generate_features self;
  _generate_tech_stack self;
  _generate_quick_start self;
  _generate_installation self;
  _generate_usage self;
  _generate_project_structure self;
  _generate_roadmap self;
  _generate_contributing self;
  _generate_license self;
  _generate_acknowledgments self;
  _generate_footer self
].

(** [filter(None, sections)]: the sections that are not empty. *)
Definition non_empty (sections : list string) : list string :=
  List.filter (fun s => negb (String.eqb s EmptyString)) sections.

(** [generate] *)
Definition generate (self : t) : string :=
  Str.join (Str.nl +:+ Str.nl) (non_empty (sections self)).

End TemplateGenerator.

(** ** enhancer.py *)

Module AIEnhancer.

(** A raised exception: its class and [str(e)]. Every class that occurs
    derives from [Exception]. *)
Inductive exn : Type := Exn (class message : string).

Definition exn_str (e : exn) : string :=
  match e with Exn _ message => message end.

(** The request [client.messages.create] sends. *)
Record request : Type := {
  model : string;
  max_tokens : nat;
  messages : list (string * string)   (* role, content *)
}.

(** A block of [message.content]: one with a [text] attribute, or one of
    another class without it. *)
Inductive block : Type :=
| TextBlock (text : string)
| OtherBlock (class : string).

(** What the call does: raise, or return a message with its content. *)
Inductive outcome : Type :=
| Raises (e : exn)
| Returns (content : list block).

(** What the enhancer sees of the world: the process environment, whether
    [import anthropic] succeeds, the exception that building a client for
    a key raises when it raises one (the constructor reads the settings of
    the process, its proxies among them), and the remote service answering
    a request made with a key. *)
Record world : Type := {
  environ : gmap string string;
  anthropic_installed : bool;
  client_raises : string -> option exn;
  remote : string -> request -> outcome
}.

(** What the enhancer does to the world, in order. *)
Inductive event : Type :=
| NetworkCall (api_key : string) (req : request)
| Printed (line : string).

(** Computations that raise or return, and log their events. *)
Definition M (A : Type) : Type := list event -> (exn + A) * list event.

Definition ret {A} (a : A) : M A := fun log => (inr a, log).

Definition bind {A B} (m : M A) (k : A -> M B) : M B :=
  fun log =>
    match m log with
    | (inl e, log') => (inl e, log')
    | (inr a, log') => k a log'
    end.

Definition raise {A} (e : exn) : M A := fun log => (inl e, log).

Definition emit (ev : event) : M unit := fun log => (inr tt, log ++ [ev]).

(** [try: body except Exception as e: handler] *)
Definition try_except {A} (body : M A) (handler : exn -> M A) : M A :=
  fun log =>
    match body log with
    | (inl e, log') => handler e log'
    | (inr a, log') => (inr a, log')
    end.

(** A computation run from the start, with nothing logged yet. *)
Definition run {A} (m : M A) : (exn + A) * list event := m [].

Declare Scope enhancer_scope.
Delimit Scope enhancer_scope with enhancer.
Notation "x <- m ;; k" := (bind m (fun x => k))
  (at level 62, m at next level, right associativity, only parsing) : enhancer_scope.
Notation "m ;;; k" := (bind m (fun _ => k))
  (at level 62, right associativity, only parsing) : enhancer_scope.
Local Open Scope enhancer_scope.

(** [print(line)] *)
Definition print (line : string) : M unit := emit (Printed line).

(** [anthropic.Anthropic(api_key=api_key)]: the client is known by its
    key. No call is made yet. *)
Definition Anthropic (w : world) (api_key : string) : M unit :=
  match client_raises w api_key with
  | Some e => raise e
  | None => ret tt
  end.

(** [client.messages.create(...)] for a client holding [api_key]. *)
Definition messages_create (w : world) (api_key : string) (req : request)
  : M (list block) :=
  emit (NetworkCall api_key req) ;;;
  match remote w api_key req with
  | Raises e => raise e
  | Returns content => ret content
  end.

(** [message.content[0].text] *)
Definition first_text (content : list block) : M string :=
  match content with
  | [] => raise (Exn "IndexError" "list index out of range")
  | TextBlock text :: _ => ret text
  | OtherBlock class :: _ =>
      raise (Exn "AttributeError"
                 ("'" +:+ class +:+ "' object has no attribute 'text'"))
  end.

(** The attributes of an enhancer object. *)
Record t : Type := { self_api_key : string }.

(** [__init__]: [os.environ.get] gives [None] for a missing variable, and
    [not self.api_key] holds for [None] and for the empty string. *)
Definition init (w : world) : M t :=
  let api_key := environ w !! "ANTHROPIC_API_KEY" in
  match api_key with
  | None => raise (Exn "ValueError" "ANTHROPIC_API_KEY environment variable not set. Get your API key from https://console.anthropic.com/")
  | Some key =>
      if String.eqb key EmptyString
      then raise (Exn "ValueError" "ANTHROPIC_API_KEY environment variable not set. Get your API key from https://console.anthropic.com/")
      else ret {| self_api_key := key |}
  end.

(** [_prepare_context] *)
Definition _prepare_context (scan_results : ScanResult) (tech_info : TechInfo)
  : string :=
  let context_parts :=
    [("- Primary Language: " +:+ primary_language tech_info)]
    ++ (match languages tech_info with
        | [] => []
        | _ :: _ => [("- Languages: " +:+ Str.join ", " (languages tech_info))]
        end)
    ++ (match frameworks tech_info with
        | [] => []
        | _ :: _ => [("- Frameworks: " +:+ Str.join ", " (frameworks tech_info))]
        end)
    ++ (match package_managers tech_info with
        | [] => []
        | _ :: _ => [("- Package Managers: " +:+ Str.join ", " (package_managers tech_info))]
        end)
    ++ [("- File Count: " +:+ Str.of_nat (file_count scan_results));
        ("- Has Tests: " +:+ Str.of_bool (has_tests tech_info));
        ("- Has CI/CD: " +:+ Str.of_bool (has_ci tech_info))] in
  Str.join Str.nl context_parts.

(** The prompt of [enhance]. *)
Definition prompt_for (readme_content context : string) : string :=
  (Str.multiline [
      "You are a technical writer helping to improve a README file.";
      EmptyString;
      "Here's the auto-generated README:";
      EmptyString;
      readme_content;
      EmptyString;
      "Project context:";
      context;
      EmptyString;
      "Please improve this README by:";
      "1. Writing a compelling, professional project description (2-3 sentences)";
      "2. Suggesting 3-5 realistic features based on the detected technologies";
      "3. Making the overall tone more engaging and clear";
      EmptyString;
      "Keep the same structure and sections, just improve the content. Do not add new sections.";
      "Return ONLY the improved README content, no explanations."
    ]).

(** The request of [enhance]. *)
Definition request_for (prompt : string) : request :=
  {| model := "claude-sonnet-4-20250514";
     max_tokens := 2000;
     messages := [("user", prompt)] |}.

(** [enhance]. The import and the construction of the client come
    before the [try] of the call: what they raise is not caught. *)
Definition enhance (w : world) (self : t) (readme_content : string)
    (scan_results : ScanResult) (tech_info : TechInfo) : M string :=
  (if anthropic_installed w then ret tt
   else raise (Exn "ImportError" "anthropic package not installed. Install with: pip install anthropic")) ;;;
  Anthropic w (self_api_key self) ;;;
  let context := _prepare_context scan_results tech_info in
  let prompt := prompt_for readme_content context in
  try_except
    (message <- messages_create w (self_api_key self) (request_for prompt) ;;
     enhanced_content <- first_text message ;;
     ret enhanced_content)
    (fun e =>
       print ("Warning: AI enhancement failed: " +:+ exn_str e) ;;;
       print "Returning original README content" ;;;
       ret readme_content).

End AIEnhancer.

(** * The vocabulary of the properties *)

(** ** Induction over the file tree *)

Section EntryInduction.
Variable P : entry -> Prop.
Hypothesis HFile : forall n, P (File n).
Hypothesis HDir : forall n l s cs, Forall P cs -> P (Dir n l s cs).
Hypothesis HOther : forall n, P (Other n).
Hypothesis HDenied : forall n, P (Denied n).

Fixpoint entry_tree_ind (e : entry) : P e :=
  match e with
  | File n => HFile n
  | Dir n l s cs =>
      HDir n l s cs
        ((fix all (cs : list entry) : Forall P cs :=
            match cs with
            | [] => List.Forall_nil P
            | c :: r => List.Forall_cons P c r (entry_tree_ind c) (all r)
            end) cs)
  | Other n => HOther n
  | Denied n => HDenied n
  end.
End EntryInduction.

(** ** Scanner *)

(** A name the filter of [_scan_recursive] lets through. *)
Definition kept (name : string) : Prop :=
  (name ∉ ProjectScanner.IGNORE_DIRS) ∧ (name ∉ ProjectScanner.IGNORE_FILES) ∧
  (Str.startswith name "." = true → name ∈ ProjectScanner.ALLOWED_DOTFILES).

(** The same as a test: neither ignored nor hidden. *)
Definition visible (name : string) : bool :=
  negb (ProjectScanner.ignored name) && negb (ProjectScanner.hidden name).

(** What the scanner has recorded so far passes the filter. *)
Definition recorded_kept (self : ProjectScanner.t) : Prop :=
  Forall (fun p => kept (PurePath.name p)) (ProjectScanner.self_files self) ∧
  Forall (fun p => kept (PurePath.name p)) (ProjectScanner.self_directories self).

(** Every suffix of a recorded file is among the recorded extensions. *)
Definition suffixes_recorded (self : ProjectScanner.t) : Prop :=
  forall f, In f (ProjectScanner.self_files self) ->
    PurePath.suffix f <> EmptyString ->
    PurePath.suffix f ∈ ProjectScanner.self_file_extensions self.



(** Whether the loop over the entries of a directory ends at this entry:
    the name passes the filter and [is_file] raises [PermissionError],
    the directory being one that cannot be searched or the entry one
    whose [stat] is refused. *)
Definition stops (searchable : bool) (e : entry) : bool :=
  visible (entry_name e) &&
  (negb searchable || match e with Denied _ => true | _ => false end).

Section UntilStop.
Context {A B : Type}.
Variable stop : A -> bool.
Variable f : A -> list B.

(** What [f] gives on the elements that come before the first one at
    which [stop] holds. *)
Fixpoint until_stop (l : list A) : list B :=
  match l with
  | [] => []
  | x :: r => if stop x then [] else f x ++ until_stop r
  end.
End UntilStop.

(** The regular files below an entry that lie before the entry at which
    the loop over their directory ends, and so for every directory above
    them; each with whether every directory on the way can be listed. *)
Fixpoint reached_files (e : entry) : list (list string * bool) :=
  match e with
  | File n => [([n], true)]
  | Dir n l s cs =>
      map (fun f => (n :: fst f, l && snd f)) (until_stop (stops s) reached_files cs)
  | Other _ => []
  | Denied _ => []
  end.

Definition listing_files (searchable : bool) (items : list entry)
  : list (list string * bool) :=
  until_stop (stops searchable) reached_files items.




(** What is recorded, of the files and directories the loop over a
    directory at depth [depth] comes to: the parts all pass the name
    filter, every directory on the way can be listed, and the directory
    holding it is at most [max_depth] levels below the root. *)
Definition selected (max_depth depth : nat) (f : list string * bool) : bool :=
  forallb visible (fst f) && snd f && (depth + length (fst f) <=? S max_depth).

(** ** Detector *)

(** The extensions of a scan result cover the suffixes of its files, as the
    data model has it: the extensions are those observed on the files. *)
Definition extensions_observed (sr : ScanResult) : Prop :=
  forall f, In f (files sr) -> PurePath.suffix f <> EmptyString ->
    In (PurePath.suffix f) (extensions sr).

(** A file with a YAML extension that also contains a Kubernetes-related
    substring, as C4 words it. *)
Definition kubernetes_yaml (f : Path) : bool :=
  (String.eqb (PurePath.suffix f) ".yaml" || String.eqb (PurePath.suffix f) ".yml")
  && (Str.contains "k8s" (PurePath.str f) || Str.contains "kubernetes" (PurePath.str f)).

(** ** Generator *)

(** The generator the pipeline builds for a project: named after the
    project directory, fed with the scan and with what the detector
    derives from it. *)
Definition generator_for (d : disk) (pr : project) : TemplateGenerator.t :=
  let sr := ProjectScanner.scan pr in
  {| TemplateGenerator.self_project_name := project_name sr;
     TemplateGenerator.self_scan_results := sr;
     TemplateGenerator.self_tech_info := TechDetector.detect d sr |}.

(** The language badge of [_generate_badges] for the language ["Unknown"]. *)
Definition unknown_language_badge : string :=
  "![Unknown](https://img.shields.io/badge/Unknown-555555?style=for-the-badge&logo=unknown&logoColor=white)".

(** ** Enhancer *)

(** The [ValueError] of [__init__]. *)
Definition missing_key_error : AIEnhancer.exn :=
  AIEnhancer.Exn "ValueError"
    "ANTHROPIC_API_KEY environment variable not set. Get your API key from https://console.anthropic.com/".

(** The outcome of the body of the [try] of [enhance]: the exception the
    call or the reading of its answer raises, or the text of the answer;
    no text when the [try] is not reached, the library being missing or
    the client not built. *)
Definition attempt (w : AIEnhancer.world) (self : AIEnhancer.t)
    (readme_content : string) (scan_results : ScanResult) (tech_info : TechInfo)
  : AIEnhancer.exn + option string :=
  let req := AIEnhancer.request_for
               (AIEnhancer.prompt_for readme_content
                  (AIEnhancer._prepare_context scan_results tech_info)) in
  if negb (AIEnhancer.anthropic_installed w) then inr None
  else
    match AIEnhancer.client_raises w (AIEnhancer.self_api_key self) with
    | Some _ => inr None
    | None =>
        match AIEnhancer.remote w (AIEnhancer.self_api_key self) req with
        | AIEnhancer.Raises e => inl e
        | AIEnhancer.Returns [] =>
            inl (AIEnhancer.Exn "IndexError" "list index out of range")
        | AIEnhancer.Returns (AIEnhancer.TextBlock text :: _) => inr (Some text)
        | AIEnhancer.Returns (AIEnhancer.OtherBlock class :: _) =>
            inl (AIEnhancer.Exn "AttributeError"
                   ("'" +:+ class +:+ "' object has no attribute 'text'"))
        end
    end.

(** ** Sample inputs *)

(** A small project: sources, a hidden file, an ignored directory. *)
Definition sample_project : project :=
  Project ["proj"] true true [
    File "app.py"; File "README.md"; File ".gitignore"; File ".editorconfig";
    Dir "src" true true [File "main.py"; Dir "util" true true [File "a.js"; File "yarn.lock"]];
    Dir "node_modules" true true [File "x.js"]
  ].

(** A project with a package manifest. *)
Definition js_project : project :=
  Project ["web"] true true [File "package.json"; File "index.js"].


(** Two files, one YAML and one that mentions k8s. *)
Definition yaml_and_notes : project :=
  Project ["proj"] true true [File "deploy.yml"; File "k8s-notes.txt"].

(** An empty directory. *)
Definition empty_project : project := Project ["empty"] true true [].

(** A disk on which no manifest can be read. *)
Definition unreadable_disk : disk :=
  {| manifest_dependencies := fun _ => None; text_lower := fun _ => None |}.

(** A world without the credential. *)
Definition world_without_key : AIEnhancer.world :=
  {| AIEnhancer.environ := ∅;
     AIEnhancer.anthropic_installed := true;
     AIEnhancer.client_raises := fun _ => None;
     AIEnhancer.remote := fun _ _ => AIEnhancer.Returns [AIEnhancer.TextBlock "# Improved"] |}.

(** A world with the credential whose remote service cannot be reached. *)
Definition connection_error : AIEnhancer.exn :=
  AIEnhancer.Exn "APIConnectionError" "Connection error.".

Definition world_offline : AIEnhancer.world :=
  {| AIEnhancer.environ := {[ "ANTHROPIC_API_KEY" := "sk-test" ]};
     AIEnhancer.anthropic_installed := true;
     AIEnhancer.client_raises := fun _ => None;
     AIEnhancer.remote := fun _ _ => AIEnhancer.Raises connection_error |}.

(** ** More vocabulary: the scanner *)

(** The directories at and below an entry that lie before the entry at
    which the loop over their directory ends, as the parts that lead to
    them from the directory holding the entry, with whether every directory
    above them can be listed. *)
Fixpoint reached_dirs (e : entry) : list (list string * bool) :=
  match e with
  | File _ => []
  | Dir n l s cs =>
      ([n], true)
      :: map (fun d => (n :: fst d, l && snd d)) (until_stop (stops s) reached_dirs cs)
  | Other _ => []
  | Denied _ => []
  end.

Definition listing_dirs (searchable : bool) (items : list entry)
  : list (list string * bool) :=
  until_stop (stops searchable) reached_dirs items.

(** The scanner after a second [_scan_recursive(self.project_path)] on the
    same object, as a second call of [scan] runs it: [scan] does not reset
    the lists. *)
Definition rescanned (pr : project) : ProjectScanner.t :=
  ProjectScanner._scan_recursive (root_path pr) (root_listable pr)
    (root_searchable pr) (root_entries pr)
    0 ProjectScanner.default_max_depth (ProjectScanner.scanned pr).

(** A project whose tree is eleven directories deep, with a file at every
    level from the tenth directory on. *)
Definition deep_project : project :=
  Project ["deep"] true true
    [Dir "d1" true true [Dir "d2" true true [Dir "d3" true true [Dir "d4" true true [Dir "d5" true true
     [Dir "d6" true true [Dir "d7" true true [Dir "d8" true true [Dir "d9" true true
      [Dir "d10" true true
         [File "kept.py";
          Dir "d11" true true [File "dropped.py"; Dir "d12" true true []]]]]]]]]]]]].

(** A project with two license candidates and a hidden CI file. *)
Definition licensed_project : project :=
  Project ["lib"] true true
    [File "COPYING"; File "LICENSE.txt"; File ".travis.yml"; File "lib.rs"].

(** Every recorded extension is the suffix of a recorded file. *)
Definition extensions_from_files (self : ProjectScanner.t) : Prop :=
  forall e, e ∈ ProjectScanner.self_file_extensions self ->
    e <> EmptyString ∧
    exists f, In f (ProjectScanner.self_files self) ∧ PurePath.suffix f = e.

(** ** More vocabulary: the detector *)

(** The number of files of a scan result whose suffix maps to a language. *)
Definition files_of_language (sr : ScanResult) (lang : string) : nat :=
  length (List.filter
            (fun f => bool_decide
                        (TechDetector.LANGUAGE_MAP !! PurePath.suffix f = Some lang))
            (files sr)).

(** [lang_counts.get(lang, 0)] *)
Definition count_of (lang : string) (counts : list (string * nat)) : nat :=
  match find (fun p => String.eqb (fst p) lang) counts with
  | Some p => snd p
  | None => 0
  end.

(** A project in a directory whose own name contains [test] and [flask]. *)
Definition latest_flask_project : project :=
  Project ["work"; "latest-flask"] true true [File "notes.txt"].

(** The words [_parse_requirements] looks for, each with the framework it
    stands for, in the order of the tests. *)
Definition requirement_words : list (string * string) :=
  [("django", "Django"); ("flask", "Flask"); ("fastapi", "FastAPI");
   ("streamlit", "Streamlit"); ("pytest", "Pytest")].

(** The dependencies [_parse_package_json] looks for, each with its
    framework, in the order of the tests. *)
Definition package_dependencies : list (string * string) :=
  [("react", "React"); ("next", "Next.js"); ("vue", "Vue.js");
   ("express", "Express"); ("@angular/core", "Angular")].

(** A service with a requirements file, on a disk where every text reads
    as one line that names [flask-cors]. *)
Definition service_project : project :=
  Project ["svc"] true true [File "requirements.txt"; File "main.rs"].

Definition flask_cors_disk : disk :=
  {| manifest_dependencies := fun _ => None;
     text_lower := fun _ => Some "flask-cors==4.0.0" |}.

(** A project with a Go module file, on a disk where every manifest
    declares [vue] alone. *)
Definition go_project : project :=
  Project ["web"] true true [File "go.mod"; File "main.go"].

Definition vue_disk : disk :=
  {| manifest_dependencies := fun _ => Some {[ "vue" ]};
     text_lower := fun _ => None |}.

(** ** More vocabulary: the generator and the enhancer *)

(** The sections of [generate] other than the tech stack, in order. *)
Definition sections_but_tech_stack (self : TemplateGenerator.t) : list string := [
  TemplateGenerator._generate_header self;
  TemplateGenerator._generate_badges self;
  TemplateGenerator._generate_description self;
  TemplateGenerator._generate_demo_section self;
  TemplateGenerator._generate_features self;
  TemplateGenerator._generate_quick_start self;
  TemplateGenerator._generate_installation self;
  TemplateGenerator._generate_usage self;
  TemplateGenerator._generate_project_structure self;
  TemplateGenerator._generate_roadmap self;
  TemplateGenerator._generate_contributing self;
  TemplateGenerator._generate_license self;
  TemplateGenerator._generate_acknowledgments self;
  TemplateGenerator._generate_footer self
].

(** Whether [exists()] answers [True] for a candidate of
    [_find_special_files]. *)
Definition found (pr : project) (filename : string) : bool :=
  match ProjectScanner.candidate_exists pr filename with
  | Some true => true
  | _ => false
  end.

(** The generator built from a scan result and from what the detector
    derives from it, named after the project. *)
Definition generator_from (d : disk) (sr : ScanResult) : TemplateGenerator.t :=
  {| TemplateGenerator.self_project_name := project_name sr;
     TemplateGenerator.self_scan_results := sr;
     TemplateGenerator.self_tech_info := TechDetector.detect d sr |}.

(** A project with a workflow directory, which the scanner ignores. *)
Definition ci_project : project :=
  Project ["app"] true true
    [Dir ".github" true true [Dir "workflows" true true [File "ci.yml"]];
     File "main.py"].

(** A listing whose second entry is a link into a place the user may
    not search. *)
Definition interrupted_project : project :=
  Project ["proj"] true true [File "a.py"; Denied "link"; File "b.py"].

(** The project with its listing cut down to [items]. *)
Definition with_entries (pr : project) (items : list entry) : project :=
  Project (root_path pr) (root_listable pr) (root_searchable pr) items.

(** A project directory that can be listed but not searched. *)
Definition unsearchable_project : project :=
  Project ["shut"] true false [File "main.py"; File "LICENSE"].

(** The license section for a project in which a license file was found. *)
Definition mit_license_section : string :=
  Str.multiline [
    "## 📄 License";
    EmptyString;
    "Distributed under the MIT License. See `LICENSE` file for more information."
  ].

(** The license section for a project without a license file. *)
Definition unlicensed_section : string :=
  Str.multiline [
    "## 📄 License";
    EmptyString;
    "This project is unlicensed. Please add a LICENSE file to specify terms of use.";
    EmptyString;
    "Recommended licenses:";
    "- [MIT License](https://opensource.org/licenses/MIT) - Permissive";
    "- [GPL v3](https://www.gnu.org/licenses/gpl-3.0.en.html) - Copyleft";
    "- [Apache 2.0](https://opensource.org/licenses/Apache-2.0) - Permissive with patent grant"
  ].

(** The candidate names of the category [license], in the order of the
    table of [_find_special_files]. *)
Definition license_candidates : list string :=
  ["LICENSE"; "LICENSE.md"; "LICENSE.txt"; "COPYING"].

(** The candidate names of the category [ci], in the same order. *)
Definition ci_candidates : list string :=
  [".github/workflows"; ".gitlab-ci.yml"; ".travis.yml"; "Jenkinsfile"].

(** A project with fifty-one files directly under its root. *)
Definition crowded_project : project :=
  Project ["crowd"] true true
    (map (fun n => File ("f" +:+ Str.of_nat n +:+ ".txt")) (seq 0 51)).

(** The [ImportError] of [enhance]. *)
Definition import_error : AIEnhancer.exn :=
  AIEnhancer.Exn "ImportError"
    "anthropic package not installed. Install with: pip install anthropic".

(** The one request [enhance] makes for a document and its context. *)
Definition enhance_request (readme_content : string) (scan_results : ScanResult)
    (tech_info : TechInfo) : AIEnhancer.request :=
  AIEnhancer.request_for
    (AIEnhancer.prompt_for readme_content
       (AIEnhancer._prepare_context scan_results tech_info)).

(** The calls to the remote service among the events of a run. *)
Definition network_calls (log : list AIEnhancer.event) : list AIEnhancer.event :=
  List.filter
    (fun ev => match ev with AIEnhancer.NetworkCall _ _ => true | _ => false end) log.

(** A world with the credential, whose service answers with two blocks. *)
Definition world_online : AIEnhancer.world :=
  {| AIEnhancer.environ := {[ "ANTHROPIC_API_KEY" := "sk-test" ]};
     AIEnhancer.anthropic_installed := true;
     AIEnhancer.client_raises := fun _ => None;
     AIEnhancer.remote := fun _ _ =>
       AIEnhancer.Returns [AIEnhancer.TextBlock "# Improved";
                           AIEnhancer.TextBlock "ignored"] |}.

(** * Properties *)

(** ** The scanner keeps ignored and hidden names out *)

Section ScannerFilter.
Import ProjectScanner.

Lemma visible_kept name : visible name = true -> kept name.
Proof.
  unfold visible, ignored, hidden, kept.
  rewrite andb_true_iff, !negb_true_iff, orb_false_iff, andb_false_iff.
  rewrite !bool_decide_eq_false, negb_false_iff, bool_decide_eq_true.
  intros [[H1 H2] H3]. repeat split; auto.
  intros Hs. destruct H3 as [H3 | H3]; [congruence | exact H3].
Qed.

Lemma kept_empty : kept EmptyString.
Proof. apply visible_kept. vm_compute. reflexivity. Qed.

(** The name of the path [iterdir] yields is the name of the entry. *)
Lemma name_child path name :
  PurePath.name (PurePath.child path name) =
  match path with
  | [] => if String.eqb name "/" then EmptyString else name
  | _ :: _ => name
  end.
Proof.
  unfold PurePath.child, PurePath.name.
  destruct path as [| a path]; [reflexivity |].
  replace ((a :: path) ++ [name]) with (a :: (path ++ [name])) by reflexivity.
  destruct (path ++ [name]) as [| b r] eqn:E.
  - destruct path; discriminate.
  - rewrite <- E. replace (a :: path ++ [name]) with ((a :: path) ++ [name]) by reflexivity.
    apply last_last.
Qed.

Lemma name_child_kept path name :
  kept name -> kept (PurePath.name (PurePath.child path name)).
Proof.
  intros Hk. rewrite name_child. destruct path; [| exact Hk].
  destruct (String.eqb name "/"); [apply kept_empty | exact Hk].
Qed.

(** A property of the scanner that appending a visible file or directory
    preserves holds throughout the traversal. *)
Section Invariant.
Variable I : t -> Prop.
Hypothesis I_add_file : forall path name self,
  visible name = true -> I self -> I (add_file (PurePath.child path name) self).
Hypothesis I_add_directory : forall path name self,
  visible name = true -> I self -> I (add_directory (PurePath.child path name) self).

Lemma loop_preserves (body : t -> entry -> round) items :
  Forall (fun e => forall self, I self -> I (state_of (body self e))) items ->
  forall self, I self -> I (loop body items self).
Proof.
  induction 1 as [| e items He _ IH]; cbn [loop]; intros self Hs; [exact Hs |].
  specialize (He self Hs).
  destruct (body self e); cbn [state_of] in He; auto.
Qed.

Lemma scan_item_preserves max_depth e :
  forall depth searchable path self,
    I self -> I (state_of (scan_item max_depth depth searchable path self e)).
Proof.
  induction e as [n | n l s cs IH | n | n] using entry_tree_ind;
    intros depth searchable path self Hs; cbn [scan_item entry_name];
    destruct (ignored n) eqn:Hi; [exact Hs | | exact Hs | | exact Hs | | exact Hs |];
    (destruct (hidden n) eqn:Hh; [exact Hs |]);
    (destruct searchable; cbn [negb state_of]; [| exact Hs]);
    assert (Hv : visible n = true) by (unfold visible; now rewrite Hi, Hh).
  - now apply I_add_file.
  - assert (Hs' : I (add_directory (PurePath.child path n) self))
      by now apply I_add_directory.
    destruct (max_depth <? S depth); [exact Hs' |].
    destruct l; [| exact Hs'].
    apply loop_preserves; [| exact Hs'].
    eapply List.Forall_impl; [| exact IH]. intros c Hc self' Hself'. now apply Hc.
  - exact Hs.
  - exact Hs.
Qed.

Lemma scanned_preserves pr : I (init (root_path pr)) -> I (scanned pr).
Proof.
  intros H0. unfold scanned, _scan_recursive.
  destruct (default_max_depth <? 0); auto.
  destruct (root_listable pr); auto.
  apply loop_preserves; auto.
  apply List.Forall_forall. intros e _. apply scan_item_preserves.
Qed.
End Invariant.

Lemma scanned_kept pr : recorded_kept (scanned pr).
Proof.
  apply scanned_preserves.
  - intros path name self Hv [Hf Hd]. split; simpl; auto.
    apply Forall_app; split; auto. constructor; auto.
    now apply name_child_kept, visible_kept.
  - intros path name self Hv [Hf Hd]. split; simpl; auto.
    apply Forall_app; split; auto. constructor; auto.
    now apply name_child_kept, visible_kept.
  - split; constructor.
Qed.

Lemma scanned_suffixes pr : suffixes_recorded (scanned pr).
Proof.
  apply scanned_preserves.
  - intros path name self _ Hs f Hin Hne. simpl in *.
    apply in_app_or in Hin. destruct Hin as [Hin | [<- | []]].
    + specialize (Hs f Hin Hne).
      destruct (String.eqb _ _); [exact Hs | set_solver].
    + destruct (String.eqb _ _) eqn:E; [| set_solver].
      apply String.eqb_eq in E. contradiction.
  - intros path name self _ Hs. exact Hs.
  - intros f [].
Qed.

(** C1. Whatever the project directory holds, a path that [scan] records
    in [files] or in [directories] has a name that is in neither
    [IGNORE_DIRS] nor [IGNORE_FILES], and if the name begins with a dot it
    is one of the two allowed names, [.env.example] and [.editorconfig]. *)
Theorem scan_excludes_ignored_and_hidden (pr : project) (p : Path) :
  In p (files (scan pr)) \/ In p (directories (scan pr)) ->
  (PurePath.name p ∉ IGNORE_DIRS) ∧
  (PurePath.name p ∉ IGNORE_FILES) ∧
  (Str.startswith (PurePath.name p) "." = true →
     PurePath.name p ∈ ALLOWED_DOTFILES).
Proof.
  intros Hin. destruct (scanned_kept pr) as [Hf Hd].
  rewrite List.Forall_forall in Hf, Hd.
  destruct Hin as [Hin | Hin]; [apply (Hf p Hin) | apply (Hd p Hin)].
Qed.

(** C1 on [sample_project], whose file [app.py] is recorded. *)
Lemma scan_excludes_witness :
  (In ["proj"; "app.py"] (files (scan sample_project)) \/
   In ["proj"; "app.py"] (directories (scan sample_project))) ∧
  ((PurePath.name ["proj"; "app.py"] ∉ IGNORE_DIRS) ∧
   (PurePath.name ["proj"; "app.py"] ∉ IGNORE_FILES) ∧
   (Str.startswith (PurePath.name ["proj"; "app.py"]) "." = true →
      PurePath.name ["proj"; "app.py"] ∈ ALLOWED_DOTFILES)).
Proof.
  assert (H : In ["proj"; "app.py"] (files (scan sample_project)) \/
              In ["proj"; "app.py"] (directories (scan sample_project)))
    by (left; vm_compute; auto).
  split; [exact H |].
  exact (scan_excludes_ignored_and_hidden sample_project ["proj"; "app.py"] H).
Defined.

(** An entry whose name the filter stops is passed over. *)
Lemma scan_item_filtered max_depth depth searchable path self e :
  visible (entry_name e) = false ->
  scan_item max_depth depth searchable path self e = Next self.
Proof.
  unfold visible. intros Hv.
  destruct e as [n | n l s cs | n | n]; cbn [scan_item entry_name] in *;
    destruct (ignored n); try reflexivity;
    destruct (hidden n); try reflexivity; discriminate Hv.
Qed.

(** One round on an entry whose name passes the filter; the call on a
    sub-directory is what [scan_item] unfolds in place. *)
Lemma scan_item_dir max_depth depth searchable path self e :
  visible (entry_name e) = true ->
  scan_item max_depth depth searchable path self e =
  if searchable
  then match e with
       | File n => Next (add_file (PurePath.child path n) self)
       | Dir n listable searchable' children =>
           Next (_scan_recursive (PurePath.child path n) listable searchable'
                   children (S depth) max_depth
                   (add_directory (PurePath.child path n) self))
       | Other _ => Next self
       | Denied _ => Raised self
       end
  else Raised self.
Proof.
  unfold visible. intros Hv. apply andb_true_iff in Hv. destruct Hv as [Hi Hh].
  apply negb_true_iff in Hi, Hh.
  destruct e as [n | n l s cs | n | n]; cbn [scan_item entry_name] in *;
    rewrite Hi, Hh; destruct searchable; reflexivity.
Qed.

(** The loop ends at an entry exactly when [stops] says so. *)
Lemma scan_item_raises max_depth depth searchable path self e :
  is_raised (scan_item max_depth depth searchable path self e) = stops searchable e.
Proof.
  unfold stops. destruct (visible (entry_name e)) eqn:Hv.
  - rewrite scan_item_dir by exact Hv.
    destruct searchable; [| reflexivity]. destruct e; reflexivity.
  - now rewrite scan_item_filtered by exact Hv.
Qed.

End ScannerFilter.

(** ** The number of files the scanner records *)

Section ScannerCount.
Import ProjectScanner.

Lemma reached_files_nonempty e :
  Forall (fun f => 1 <= length (fst f)) (reached_files e).
Proof.
  destruct e as [n | n l s cs | n | n]; simpl.
  - repeat constructor.
  - apply List.Forall_forall. intros f Hf. apply in_map_iff in Hf.
    destruct Hf as [g [<- _]]. simpl. lia.
  - constructor.
  - constructor.
Qed.

Lemma in_until_stop {A B} (stop : A -> bool) (f : A -> list B) (l : list A) (y : B) :
  In y (until_stop stop f l) -> exists x, In x l ∧ In y (f x).
Proof.
  induction l as [| x l IH]; cbn [until_stop]; [intros [] |].
  destruct (stop x); [intros [] |].
  intros Hin. apply in_app_or in Hin. destruct Hin as [Hin | Hin].
  - exists x. split; [now left | exact Hin].
  - destruct (IH Hin) as [x' [Hx' Hy]]. exists x'. split; [now right | exact Hy].
Qed.

Lemma filter_map_swap {A B} (g : A -> B) (P : B -> bool) (l : list A) :
  List.filter P (map g l) = map g (List.filter (fun x => P (g x)) l).
Proof.
  induction l as [| x l IH]; simpl; [reflexivity |].
  destruct (P (g x)); simpl; now rewrite IH.
Qed.

Lemma filter_none {A} (P : A -> bool) (l : list A) :
  Forall (fun x => P x = false) l -> List.filter P l = [].
Proof.
  induction 1 as [| x l Hx _ IH]; simpl; [reflexivity |]. now rewrite Hx.
Qed.

Lemma filter_flat_map {A B} (g : A -> list B) (P : B -> bool) (l : list A) :
  List.filter P (flat_map g l) = flat_map (fun x => List.filter P (g x)) l.
Proof.
  induction l as [| x l IH]; simpl; [reflexivity |].
  now rewrite List.filter_app, IH.
Qed.

Lemma visible_spec n : visible n = negb (ignored n) && negb (hidden n).
Proof. reflexivity. Qed.

(** What the loop appends to one of the two lists of the scanner, given
    what one round appends. *)
Section Recorded.
Variable proj : t -> list Path.
Variable enum : entry -> list (list string * bool).

Lemma loop_records max_depth depth searchable path items :
  Forall (fun e => forall self,
            proj (state_of (scan_item max_depth depth searchable path self e)) =
            proj self ++
            map (fun f => path ++ fst f)
                (List.filter (selected max_depth depth)
                   (if stops searchable e then [] else enum e))) items ->
  forall self,
    proj (loop (scan_item max_depth depth searchable path) items self) =
    proj self ++
    map (fun f => path ++ fst f)
        (List.filter (selected max_depth depth)
           (until_stop (stops searchable) enum items)).
Proof.
  induction 1 as [| e items He _ IH]; intros self; cbn [loop until_stop].
  - cbn. now rewrite app_nil_r.
  - specialize (He self).
    pose proof (scan_item_raises max_depth depth searchable path self e) as Hr.
    destruct (scan_item max_depth depth searchable path self e) as [self' | self'];
      cbn [is_raised state_of] in Hr, He; rewrite <- Hr in *.
    + rewrite IH, He, List.filter_app, map_app, app_assoc. reflexivity.
    + exact He.
Qed.
End Recorded.

(** A name the filter stops has nothing selected below it. *)
Lemma selected_below_filtered max_depth depth n (g : list string * bool -> bool)
    (l : list (list string * bool)) :
  visible n = false ->
  List.filter (selected max_depth depth) (map (fun f => (n :: fst f, g f)) l) = [].
Proof.
  intros Hv. apply filter_none. apply List.Forall_forall. intros f Hf.
  apply in_map_iff in Hf. destruct Hf as [x [<- _]].
  unfold selected. cbn [fst snd forallb]. now rewrite Hv.
Qed.

(** Nothing is selected below a directory at depth [max_depth] + 1. *)
Lemma selected_below_deep max_depth depth n (g : list string * bool -> bool)
    (l : list (list string * bool)) :
  max_depth < S depth ->
  Forall (fun f => 1 <= length (fst f)) l ->
  List.filter (selected max_depth depth) (map (fun f => (n :: fst f, g f)) l) = [].
Proof.
  intros Hm Hl. apply filter_none. apply List.Forall_forall. intros f Hf.
  apply in_map_iff in Hf. destruct Hf as [x [<- Hx]].
  rewrite List.Forall_forall in Hl. specialize (Hl x Hx).
  unfold selected. cbn [fst snd length].
  replace (depth + S (length (fst x)) <=? S max_depth) with false
    by (symmetry; apply Nat.leb_gt; lia).
  now rewrite andb_false_r.
Qed.

(** Nothing is selected below a directory that cannot be listed. *)
Lemma selected_below_unlistable max_depth depth n (l : list (list string * bool)) :
  List.filter (selected max_depth depth)
    (map (fun f => (n :: fst f, false && snd f)) l) = [].
Proof.
  apply filter_none. apply List.Forall_forall. intros f Hf.
  apply in_map_iff in Hf. destruct Hf as [x [<- _]].
  unfold selected. cbn [fst snd andb]. now rewrite andb_false_r.
Qed.

(** Below a directory that is entered, what is selected is what is
    selected one level down. *)
Lemma selected_below_entered max_depth depth path n (l : list (list string * bool)) :
  visible n = true ->
  map (fun f => path ++ fst f)
    (List.filter (selected max_depth depth)
       (map (fun f => (n :: fst f, true && snd f)) l)) =
  map (fun f => PurePath.child path n ++ fst f)
    (List.filter (selected max_depth (S depth)) l).
Proof.
  intros Hv. rewrite filter_map_swap, map_map. cbn [fst].
  rewrite (List.filter_ext
             (fun x => selected max_depth depth (n :: fst x, true && snd x))
             (selected max_depth (S depth))).
  - apply map_ext. intros f. unfold PurePath.child. now rewrite <- app_assoc.
  - intros f. unfold selected. cbn [fst snd forallb length].
    rewrite Hv. cbn [andb]. now rewrite Nat.add_succ_r.
Qed.

Lemma until_stop_nonempty {A B} (stop : A -> bool) (f : A -> list B)
    (P : B -> Prop) (l : list A) :
  (forall x, Forall P (f x)) -> Forall P (until_stop stop f l).
Proof.
  intros Hf. apply List.Forall_forall. intros y Hy.
  apply in_until_stop in Hy. destruct Hy as [x [_ Hy]].
  specialize (Hf x). rewrite List.Forall_forall in Hf. now apply Hf.
Qed.

(** One round of the loop records exactly the selected files that are
    reached below the entry, in the order of the traversal. *)
Lemma scan_item_files max_depth e :
  forall depth searchable path self, depth <= max_depth ->
    self_files (state_of (scan_item max_depth depth searchable path self e)) =
    self_files self ++
    map (fun f => path ++ fst f)
        (List.filter (selected max_depth depth)
           (if stops searchable e then [] else reached_files e)).
Proof.
  induction e as [n | n l s cs IH | n | n] using entry_tree_ind;
    intros depth searchable path self Hd;
    unfold stops; cbn [entry_name];
    (destruct (visible n) eqn:Hv;
     [rewrite scan_item_dir by exact Hv
     |rewrite scan_item_filtered by exact Hv]);
    cbn [andb state_of];
    try (destruct searchable; cbn [negb orb state_of];
         [| cbn; now rewrite app_nil_r]).
  - (* a regular file *)
    cbn [reached_files List.filter]. unfold selected. cbn [fst snd forallb length].
    rewrite Hv. cbn [andb].
    replace (depth + 1 <=? S max_depth) with true
      by (symmetry; apply Nat.leb_le; lia).
    reflexivity.
  - cbn [reached_files List.filter]. unfold selected. cbn [fst snd forallb].
    rewrite Hv. cbn. now rewrite app_nil_r.
  - (* a directory *)
    cbn [reached_files]. unfold _scan_recursive.
    destruct (max_depth <? S depth) eqn:Hm.
    { apply Nat.ltb_lt in Hm.
      rewrite selected_below_deep;
        [cbn; now rewrite app_nil_r | exact Hm |].
      apply until_stop_nonempty, reached_files_nonempty. }
    apply Nat.ltb_ge in Hm.
    destruct l.
    + rewrite (loop_records self_files reached_files).
      * cbn [add_directory self_files]. f_equal.
        symmetry. now apply selected_below_entered.
      * eapply List.Forall_impl; [| exact IH]. intros c Hc self'.
        apply Hc. exact Hm.
    + rewrite selected_below_unlistable. cbn. now rewrite app_nil_r.
  - cbn [reached_files]. rewrite selected_below_filtered by exact Hv.
    cbn. now rewrite app_nil_r.
  - (* neither a file nor a directory *)
    cbn. now rewrite app_nil_r.
  - cbn. now rewrite app_nil_r.
  - (* an entry whose [stat] is refused *)
    cbn. now rewrite app_nil_r.
  - cbn. now rewrite app_nil_r.
Qed.

(** The files of a scan, in full. *)
Lemma scanned_files pr :
  self_files (scanned pr) =
  if root_listable pr
  then map (fun f => root_path pr ++ fst f)
           (List.filter (selected default_max_depth 0)
              (listing_files (root_searchable pr) (root_entries pr)))
  else [].
Proof.
  unfold scanned, _scan_recursive.
  change (default_max_depth <? 0) with false. cbv iota.
  destruct (root_listable pr); [| reflexivity].
  rewrite (loop_records self_files reached_files); [reflexivity |].
  apply List.Forall_forall. intros e _ self.
  apply scan_item_files. unfold default_max_depth. lia.
Qed.


(** Every recorded file lies strictly below the project path. *)
Lemma scan_files_extend_root pr f :
  In f (self_files (scanned pr)) ->
  exists rel, rel <> [] ∧ f = root_path pr ++ rel.
Proof.
  rewrite scanned_files. destruct (root_listable pr); [| intros []].
  intros Hin. apply in_map_iff in Hin. destruct Hin as [g [<- Hg]].
  exists (fst g). split; [| reflexivity].
  apply List.filter_In in Hg. destruct Hg as [Hg _].
  unfold listing_files in Hg. apply in_until_stop in Hg. destruct Hg as [e [_ Hg]].
  pose proof (reached_files_nonempty e) as Hne. rewrite List.Forall_forall in Hne.
  specialize (Hne g Hg). intros E. rewrite E in Hne. simpl in Hne. lia.
Qed.


End ScannerCount.

(** ** [sorted] rearranges *)

Section SortedFacts.
Context {A : Type} (le : A -> A -> bool).

Lemma insert_sorted_perm x l : Permutation (insert_sorted le x l) (x :: l).
Proof.
  induction l as [| y r IH]; simpl; [reflexivity |].
  destruct (le x y); [reflexivity |].
  rewrite IH. apply perm_swap.
Qed.

Lemma sorted_perm l : Permutation (sorted le l) l.
Proof.
  induction l as [| x r IH]; simpl; [reflexivity |].
  rewrite insert_sorted_perm. now constructor.
Qed.

Lemma in_sorted x l : In x (sorted le l) <-> In x l.
Proof.
  split; apply Permutation_in; [| symmetry]; apply sorted_perm.
Qed.
End SortedFacts.

(** [sorted(s)] of a set lists exactly its elements. *)
Lemma in_sorted_elements (x : string) (s : gset string) :
  In x (sorted Str.leb (elements s)) <-> x ∈ s.
Proof.
  rewrite in_sorted, <- list_elem_of_In. apply elem_of_elements.
Qed.

(** ** The detector *)

Section Detector.
Import TechDetector.

Lemma scan_extensions_observed pr : extensions_observed (ProjectScanner.scan pr).
Proof.
  intros f Hin Hne. cbn [ProjectScanner.scan extensions files] in *.
  apply in_sorted_elements. now apply scanned_suffixes.
Qed.

(** *** Languages *)

Lemma detect_languages_spec sr lang :
  In lang (_detect_languages sr) <->
  exists ext, In ext (extensions sr) ∧ LANGUAGE_MAP !! ext = Some lang.
Proof.
  unfold _detect_languages. rewrite in_sorted_elements.
  assert (G : forall exts (acc : gset string),
    lang ∈ fold_left (fun (languages : gset string) ext =>
              match LANGUAGE_MAP !! ext with
              | Some l => {[ l ]} ∪ languages
              | None => languages
              end) exts acc <->
    lang ∈ acc ∨ exists ext, In ext exts ∧ LANGUAGE_MAP !! ext = Some lang).
  { induction exts as [| e exts IH]; intros acc; cbn [fold_left In].
    - split; [auto | intros [H | [ext [[] _]]]; exact H].
    - rewrite IH. destruct (LANGUAGE_MAP !! e) as [l |] eqn:E.
      + rewrite elem_of_union, elem_of_singleton. split.
        * intros [[-> | H] | [ext [Hin Hl]]]; eauto.
        * intros [H | [ext [[-> | Hin] Hl]]]; eauto.
          left. left. congruence.
      + split.
        * intros [H | [ext [Hin Hl]]]; eauto.
        * intros [H | [ext [[-> | Hin] Hl]]]; eauto. congruence. }
  destruct (G (extensions sr) ∅) as [G1 G2]. split.
  - intros H. destruct (G1 H) as [H0 | H0]; [| exact H0].
    now apply not_elem_of_empty in H0.
  - intros H. apply G2. now right.
Qed.

Lemma count_language_keys lang counts k :
  In k (map fst (count_language lang counts)) <-> k = lang ∨ In k (map fst counts).
Proof.
  induction counts as [| [l c] rest IH]; simpl.
  - intuition.
  - destruct (String.eqb l lang) eqn:E; simpl.
    + apply String.eqb_eq in E. subst. intuition.
    + rewrite IH. intuition.
Qed.

(** The languages counted are those of the files with a mapped suffix. *)
Lemma lang_counts_keys sr k :
  In k (map fst (lang_counts sr)) <->
  exists f, In f (files sr) ∧ LANGUAGE_MAP !! PurePath.suffix f = Some k.
Proof.
  unfold lang_counts.
  assert (G : forall fs acc,
    In k (map fst (fold_left (fun counts file =>
              match LANGUAGE_MAP !! PurePath.suffix file with
              | Some lang => count_language lang counts
              | None => counts
              end) fs acc)) <->
    In k (map fst acc) ∨
    exists f, In f fs ∧ LANGUAGE_MAP !! PurePath.suffix f = Some k).
  { induction fs as [| f fs IH]; intros acc; cbn [fold_left In].
    - split; [auto | intros [H | [f [[] _]]]; exact H].
    - rewrite IH. destruct (LANGUAGE_MAP !! PurePath.suffix f) as [l |] eqn:E.
      + rewrite count_language_keys. split.
        * intros [[-> | H] | [g [Hin Hl]]]; eauto.
        * intros [H | [g [[-> | Hin] Hl]]]; eauto.
          left. left. congruence.
      + split.
        * intros [H | [g [Hin Hl]]]; eauto.
        * intros [H | [g [[-> | Hin] Hl]]]; eauto. congruence. }
  destruct (G (files sr) []) as [G1 G2]. split.
  - intros H. destruct (G1 H) as [[] | H0]. exact H0.
  - intros H. apply G2. now right.
Qed.

Lemma max_count_in best items :
  In (max_count best items) (best :: items).
Proof.
  unfold max_count. revert best.
  induction items as [| x items IH]; intros best; simpl; [auto |].
  destruct (IH (if snd best <? snd x then x else best)) as [H | H].
  - destruct (snd best <? snd x); rewrite <- H; auto.
  - auto.
Qed.

Lemma primary_language_counted sr :
  lang_counts sr <> [] ->
  In (_get_primary_language sr) (map fst (lang_counts sr)).
Proof.
  unfold _get_primary_language. destruct (lang_counts sr) as [| first rest].
  - congruence.
  - intros _. apply in_map, max_count_in.
Qed.

(** The empty suffix is not a key of the table. *)
Lemma language_map_suffix f lang :
  LANGUAGE_MAP !! PurePath.suffix f = Some lang -> PurePath.suffix f <> EmptyString.
Proof. intros H E. rewrite E in H. vm_compute in H. discriminate. Qed.

(** C3. On a scan result whose extensions cover the suffixes of its files,
    the primary language is one of the detected languages when some file
    has a suffix in [LANGUAGE_MAP], and is ["Unknown"] when none has. *)
Theorem primary_language_detected (sr : ScanResult) :
  extensions_observed sr ->
  (In (_get_primary_language sr) (_detect_languages sr) ∧
   exists f, In f (files sr) ∧ is_Some (LANGUAGE_MAP !! PurePath.suffix f))
  ∨
  (_get_primary_language sr = "Unknown" ∧
   forall f, In f (files sr) -> LANGUAGE_MAP !! PurePath.suffix f = None).
Proof.
  intros Hobs. destruct (lang_counts sr) as [| first rest] eqn:E.
  - right. split.
    + unfold _get_primary_language. now rewrite E.
    + intros f Hin. destruct (LANGUAGE_MAP !! PurePath.suffix f) as [k |] eqn:Ek;
        [| reflexivity].
      assert (H : In k (map fst (lang_counts sr)))
        by (apply lang_counts_keys; eauto).
      rewrite E in H. destruct H.
  - left.
    assert (Hp : In (_get_primary_language sr) (map fst (lang_counts sr)))
      by (apply primary_language_counted; rewrite E; discriminate).
    apply lang_counts_keys in Hp. destruct Hp as [f [Hin Hl]]. split.
    + apply detect_languages_spec. exists (PurePath.suffix f). split; [| exact Hl].
      apply Hobs; [exact Hin |]. eapply language_map_suffix; eauto.
    + exists f. split; [exact Hin |]. rewrite Hl. eauto.
Qed.

(** C3 on the scan of [sample_project]. *)
Lemma primary_language_witness :
  extensions_observed (ProjectScanner.scan sample_project) ∧
  ((In (_get_primary_language (ProjectScanner.scan sample_project))
       (_detect_languages (ProjectScanner.scan sample_project)) ∧
    exists f, In f (files (ProjectScanner.scan sample_project)) ∧
              is_Some (LANGUAGE_MAP !! PurePath.suffix f))
   ∨
   (_get_primary_language (ProjectScanner.scan sample_project) = "Unknown" ∧
    forall f, In f (files (ProjectScanner.scan sample_project)) ->
              LANGUAGE_MAP !! PurePath.suffix f = None)).
Proof.
  assert (H : extensions_observed (ProjectScanner.scan sample_project)).
  { intros f Hin Hne. vm_compute in Hin.
    repeat (destruct Hin as [<- | Hin];
            [first [ exfalso; apply Hne; reflexivity | vm_compute; tauto ] |]).
    destruct Hin. }
  split; [exact H |].
  exact (primary_language_detected (ProjectScanner.scan sample_project) H).
Defined.

(** The same on what the scanner returns. *)
Corollary scan_primary_language pr :
  let sr := ProjectScanner.scan pr in
  In (_get_primary_language sr) (_detect_languages sr) ∨
  _get_primary_language sr = "Unknown".
Proof.
  intros sr. pose proof (scan_extensions_observed pr) as Hobs. fold sr in Hobs.
  destruct (lang_counts sr) as [| first rest] eqn:E.
  - right. unfold _get_primary_language. now rewrite E.
  - left.
    assert (Hp : In (_get_primary_language sr) (map fst (lang_counts sr)))
      by (apply primary_language_counted; rewrite E; discriminate).
    apply lang_counts_keys in Hp. destruct Hp as [f [Hin Hl]].
    apply detect_languages_spec. exists (PurePath.suffix f). split; [| exact Hl].
    apply Hobs; [exact Hin |]. eapply language_map_suffix; eauto.
Qed.

(** *** Tools *)

Lemma any_path_contains_spec sub sr :
  any_path_contains sub sr = true <->
  exists f, In f (files sr) ∧ Str.contains sub (PurePath.str f) = true.
Proof. unfold any_path_contains. apply existsb_exists. Qed.

(** C4, as the code has it. ['Kubernetes'] is among the tools exactly when
    the text of some path contains [.yaml] or [.yml] and the text of some
    path, the same or another, contains [k8s] or [kubernetes]. *)
Theorem kubernetes_tool_detected (sr : ScanResult) :
  In "Kubernetes" (_detect_tools sr) <->
  (exists f, In f (files sr) ∧
     (Str.contains ".yaml" (PurePath.str f) = true ∨
      Str.contains ".yml" (PurePath.str f) = true)) ∧
  (exists g, In g (files sr) ∧
     (Str.contains "k8s" (PurePath.str g) = true ∨
      Str.contains "kubernetes" (PurePath.str g) = true)).
Proof.
  assert (Hor : forall a b, (any_path_contains a sr || any_path_contains b sr = true) <->
    exists f, In f (files sr) ∧
      (Str.contains a (PurePath.str f) = true ∨ Str.contains b (PurePath.str f) = true)).
  { intros a b. rewrite orb_true_iff, !any_path_contains_spec. split.
    - intros [[f [Hf H]] | [f [Hf H]]]; exists f; auto.
    - intros [f [Hf [H | H]]]; [left | right]; exists f; auto. }
  rewrite <- !Hor. unfold _detect_tools.
  destruct (has_key "docker" (special_files sr)),
           (has_key "ci" (special_files sr)),
           (has_key "makefile" (special_files sr)),
           (any_path_contains ".yaml" sr || any_path_contains ".yml" sr),
           (any_path_contains "k8s" sr || any_path_contains "kubernetes" sr);
    cbn [app In]; split;
    try (intros [? ?]; discriminate);
    try (intros _; tauto);
    try (intros H; repeat (destruct H as [H | H]; try discriminate H); tauto).
Qed.

(** C4, as stated, fails when the two marks sit on different files: the
    scan of [deploy.yml] next to [k8s-notes.txt] yields the tool although
    no path has both a YAML mark and a Kubernetes mark. *)
Lemma kubernetes_from_two_files :
  In "Kubernetes" (_detect_tools (ProjectScanner.scan yaml_and_notes)) ∧
  existsb kubernetes_yaml (files (ProjectScanner.scan yaml_and_notes)) = false ∧
  existsb (fun f =>
             (Str.contains ".yaml" (PurePath.str f) || Str.contains ".yml" (PurePath.str f))
             && (Str.contains "k8s" (PurePath.str f)
                 || Str.contains "kubernetes" (PurePath.str f)))
          (files (ProjectScanner.scan yaml_and_notes)) = false.
Proof. vm_compute. auto. Qed.

(** *** Package managers *)

Lemma in_map_fst_filter {A B} (P : A * B -> bool) (rows : list (A * B)) (a : A) :
  In a (map fst (List.filter P rows)) ->
  exists row, In row rows ∧ fst row = a ∧ P row = true.
Proof.
  intros H. apply in_map_iff in H. destruct H as [row [Hf Hin]].
  apply List.filter_In in Hin. destruct Hin as [Hin HP]. eauto.
Qed.

Lemma in_file_names sr n :
  n ∈ file_names sr <-> exists f, In f (files sr) ∧ PurePath.name f = n.
Proof.
  unfold file_names. rewrite elem_of_list_to_set, list_elem_of_In, in_map_iff.
  split; intros [f [H1 H2]]; exists f; auto.
Qed.

Lemma yarn_lock_ignored : "yarn.lock" ∈ ProjectScanner.IGNORE_FILES.
Proof. eapply bool_decide_unpack. vm_compute. exact I. Qed.

Lemma scan_no_yarn_lock pr :
  bool_decide ("yarn.lock" ∈ file_names (ProjectScanner.scan pr)) = false.
Proof.
  apply bool_decide_eq_false. intros H. apply in_file_names in H.
  destruct H as [f [Hin Hn]].
  destruct (scanned_kept pr) as [Hf _]. rewrite List.Forall_forall in Hf.
  destruct (Hf f Hin) as [_ [Hi _]]. apply Hi. rewrite Hn.
  exact yarn_lock_ignored.
Qed.

(** C9. On what [scan] returns, no detected package manager is ['yarn']:
    its only marker, [yarn.lock], is in [IGNORE_FILES] and so is never the
    name of a recorded file. *)
Theorem scan_never_detects_yarn (pr : project) :
  Forall (fun manager => manager <> "yarn")
         (_detect_package_managers (ProjectScanner.scan pr)).
Proof.
  apply List.Forall_forall. intros m Hin ->.
  apply in_map_fst_filter in Hin. destruct Hin as [row [Hrow [Hfst HP]]].
  unfold indicators in Hrow. cbn [In] in Hrow.
  repeat (destruct Hrow as [<- | Hrow]; [try discriminate Hfst |]);
    [| destruct Hrow].
  cbn [snd existsb] in HP. rewrite scan_no_yarn_lock in HP. discriminate HP.
Qed.

(** *** Frameworks *)

Lemma indicated_frameworks_row sr (row : string * list string) :
  In row FRAMEWORK_INDICATORS ->
  existsb (fun indicator => any_path_contains indicator sr) (snd row) = true ->
  fst row ∈ indicated_frameworks sr.
Proof.
  unfold indicated_frameworks.
  assert (G : forall rows (acc : gset string),
    fst row ∈ acc ∨
    (In row rows ∧
     existsb (fun indicator => any_path_contains indicator sr) (snd row) = true) ->
    fst row ∈ fold_left
      (fun (frameworks : gset string) (r : string * list string) =>
         if existsb (fun indicator => any_path_contains indicator sr) (snd r)
         then {[ fst r ]} ∪ frameworks else frameworks) rows acc).
  { induction rows as [| r rows IH]; intros acc; cbn [fold_left In].
    - intros [H | [[] _]]. exact H.
    - intros [H | [[-> | Hin] He]]; apply IH.
      + left. destruct (existsb _ (snd r)); [apply elem_of_union; now right | exact H].
      + left. rewrite He. apply elem_of_union. left. now apply elem_of_singleton.
      + right. auto. }
  intros Hin He. apply G. right. auto.
Qed.

Lemma detect_frameworks_indicated d sr fw :
  fw ∈ indicated_frameworks sr -> In fw (_detect_frameworks d sr).
Proof.
  intros H. unfold _detect_frameworks. apply in_sorted_elements.
  destruct (has_key "requirements" (special_files sr));
    destruct (has_key "package" (special_files sr));
    repeat (apply elem_of_union; left); exact H.
Qed.

(** C10. When the text of some recorded path contains [package.json], the
    frameworks include both ['React'] and ['Node.js'], whatever the
    manifest declares. *)
Theorem package_json_gives_react_and_node (d : disk) (sr : ScanResult) :
  any_path_contains "package.json" sr = true ->
  In "React" (_detect_frameworks d sr) ∧ In "Node.js" (_detect_frameworks d sr).
Proof.
  intros H. split; apply detect_frameworks_indicated.
  - apply (indicated_frameworks_row sr ("React", ["package.json"; "react"])).
    + unfold FRAMEWORK_INDICATORS. cbn [In]. auto.
    + cbn [snd existsb]. now rewrite H.
  - apply (indicated_frameworks_row sr ("Node.js", ["package.json"])).
    + unfold FRAMEWORK_INDICATORS. cbn [In]. auto 12.
    + cbn [snd existsb]. now rewrite H.
Qed.

(** C10 on the scan of [js_project]. *)
Lemma package_json_witness :
  any_path_contains "package.json" (ProjectScanner.scan js_project) = true ∧
  (In "React" (_detect_frameworks unreadable_disk (ProjectScanner.scan js_project)) ∧
   In "Node.js" (_detect_frameworks unreadable_disk (ProjectScanner.scan js_project))).
Proof.
  assert (H : any_path_contains "package.json" (ProjectScanner.scan js_project) = true)
    by (vm_compute; reflexivity).
  split; [exact H |].
  exact (package_json_gives_react_and_node unreadable_disk (ProjectScanner.scan js_project) H).
Defined.

End Detector.

(** ** The generator *)

Section Generator.
Import TemplateGenerator.

(** The primary language the detector returns is never the empty string,
    so the guard of the language badge in [_generate_badges] always
    holds on the detector's output. *)
Lemma language_names_nonempty ext lang :
  TechDetector.LANGUAGE_MAP !! ext = Some lang -> lang <> EmptyString.
Proof.
  assert (H : map_Forall (fun _ v => v <> EmptyString) TechDetector.LANGUAGE_MAP).
  { eapply bool_decide_unpack. vm_compute. exact I. }
  intros Hl. exact (H ext lang Hl).
Qed.

Lemma primary_language_nonempty sr :
  TechDetector._get_primary_language sr <> EmptyString.
Proof.
  destruct (TechDetector.lang_counts sr) as [| first rest] eqn:E.
  - unfold TechDetector._get_primary_language. rewrite E. discriminate.
  - assert (Hp : In (TechDetector._get_primary_language sr)
                    (map fst (TechDetector.lang_counts sr)))
      by (apply primary_language_counted; rewrite E; discriminate).
    apply lang_counts_keys in Hp. destruct Hp as [f [_ Hl]].
    eapply language_names_nonempty; eauto.
Qed.

(** C5, evaluated. For an empty directory the scan counts no file and the
    primary language is ["Unknown"]; the document keeps the header, the
    roadmap, the contributing, the license and the footer sections and
    has no tech-stack section; but its badges section does carry a
    language badge, the one for ["Unknown"]. *)
Theorem empty_directory_readme (d : disk) :
  file_count (self_scan_results (generator_for d empty_project)) = 0 ∧
  primary_language (self_tech_info (generator_for d empty_project)) = "Unknown" ∧
  forallb (fun section => mem section (non_empty (sections (generator_for d empty_project))))
    [ _generate_header (generator_for d empty_project);
      _generate_roadmap (generator_for d empty_project);
      _generate_contributing (generator_for d empty_project);
      _generate_license (generator_for d empty_project);
      _generate_footer (generator_for d empty_project) ] = true ∧
  _generate_tech_stack (generator_for d empty_project) = EmptyString ∧
  Str.contains "Tech Stack" (generate (generator_for d empty_project)) = false ∧
  mem (_generate_badges (generator_for d empty_project))
      (non_empty (sections (generator_for d empty_project))) = true ∧
  Str.contains unknown_language_badge
    (_generate_badges (generator_for d empty_project)) = true.
Proof. vm_compute. repeat split; reflexivity. Qed.

(** C8. Two generators produce the same license section exactly when they
    agree on whether the scan found a license file: the section is a
    function of that presence alone, and the two texts differ. *)
Theorem license_section_by_presence (g1 g2 : TemplateGenerator.t) :
  _generate_license g1 = _generate_license g2 <->
  has_key "license" (special_files (self_scan_results g1)) =
  has_key "license" (special_files (self_scan_results g2)).
Proof.
  unfold _generate_license.
  destruct (has_key "license" (special_files (self_scan_results g1))),
           (has_key "license" (special_files (self_scan_results g2)));
    split; intros H; try reflexivity; try discriminate H;
    exfalso; vm_compute in H; discriminate H.
Qed.

End Generator.

(** ** The enhancer *)

Section Enhancer.
Import AIEnhancer.
Local Open Scope enhancer_scope.

(** C6. In a world whose environment lacks [ANTHROPIC_API_KEY],
    constructing the enhancer raises [ValueError] with nothing logged, and
    so does constructing it and then enhancing a document: no call to the
    remote service is made. *)
Theorem init_without_key_raises (w : world) (readme_content : string)
    (scan_results : ScanResult) (tech_info : TechInfo) :
  environ w !! "ANTHROPIC_API_KEY" = None ->
  run (init w) = (inl missing_key_error, []) ∧
  run (self <- init w ;; enhance w self readme_content scan_results tech_info)
  = (inl missing_key_error, []).
Proof.
  intros Hkey. unfold run, bind, init. rewrite Hkey. split; reflexivity.
Qed.

(** C6 in [world_without_key]. *)
Lemma init_without_key_witness :
  environ world_without_key !! "ANTHROPIC_API_KEY" = None ∧
  (run (init world_without_key) = (inl missing_key_error, []) ∧
   run (self <- init world_without_key ;;
        enhance world_without_key self "# README"
          (ProjectScanner.scan sample_project)
          (TechDetector.detect unreadable_disk (ProjectScanner.scan sample_project)))
   = (inl missing_key_error, [])).
Proof.
  assert (H : environ world_without_key !! "ANTHROPIC_API_KEY" = None)
    by reflexivity.
  split; [exact H |].
  exact (init_without_key_raises world_without_key "# README"
           (ProjectScanner.scan sample_project)
           (TechDetector.detect unreadable_disk (ProjectScanner.scan sample_project)) H).
Defined.

(** C7. When the client library is installed and the body of the [try]
    raises, be it the call itself or the reading of a malformed answer,
    [enhance] returns the document it was given; it has made the one call
    and printed the two lines of the warning, nothing more. *)
Theorem enhance_falls_back (w : world) (self : t) (readme_content : string)
    (scan_results : ScanResult) (tech_info : TechInfo) (e : exn) :
  anthropic_installed w = true ->
  attempt w self readme_content scan_results tech_info = inl e ->
  run (enhance w self readme_content scan_results tech_info) =
  (inr readme_content,
   [ NetworkCall (self_api_key self)
       (request_for
          (prompt_for readme_content (_prepare_context scan_results tech_info)));
     Printed ("Warning: AI enhancement failed: " +:+ exn_str e);
     Printed "Returning original README content" ]).
Proof.
  intros Hinst Hatt. unfold attempt in Hatt. rewrite Hinst in Hatt.
  cbn [negb] in Hatt.
  unfold run, enhance, Anthropic, bind, try_except, messages_create, bind, emit,
    print, emit.
  rewrite Hinst. cbn [ret app].
  destruct (client_raises w (self_api_key self)); [discriminate Hatt |].
  cbn [ret app].
  destruct (remote w (self_api_key self) _) as [e' | [| [text | class] rest]];
    cbn [raise ret first_text]; inversion Hatt; subst; reflexivity.
Qed.

(** C7 in [world_offline], where the call raises a connection error. *)
Lemma enhance_falls_back_witness :
  anthropic_installed world_offline = true ∧
  attempt world_offline {| self_api_key := "sk-test" |} "# README"
    (ProjectScanner.scan sample_project)
    (TechDetector.detect unreadable_disk (ProjectScanner.scan sample_project))
  = inl connection_error ∧
  run (enhance world_offline {| self_api_key := "sk-test" |} "# README"
         (ProjectScanner.scan sample_project)
         (TechDetector.detect unreadable_disk (ProjectScanner.scan sample_project))) =
  (inr "# README",
   [ NetworkCall "sk-test"
       (request_for
          (prompt_for "# README"
             (_prepare_context (ProjectScanner.scan sample_project)
                (TechDetector.detect unreadable_disk (ProjectScanner.scan sample_project)))));
     Printed ("Warning: AI enhancement failed: " +:+ exn_str connection_error);
     Printed "Returning original README content" ]).
Proof.
  split; [reflexivity |]. split; [reflexivity |].
  exact (enhance_falls_back world_offline {| self_api_key := "sk-test" |} "# README"
           (ProjectScanner.scan sample_project)
           (TechDetector.detect unreadable_disk (ProjectScanner.scan sample_project))
           connection_error eq_refl eq_refl).
Defined.

End Enhancer.

(** * Further properties *)

(** ** The scanner: what is recorded, and where *)

Section ScannerPaths.
Import ProjectScanner.

(** X1. A recorded file is the project path followed by one to eleven
    parts, every one of which passes the name filter: no recorded file
    lies under an ignored or hidden directory, nor deeper than a directory
    at depth [max_depth]. *)
Theorem scan_files_below_root (pr : project) (f : Path) :
  In f (files (scan pr)) ->
  exists rel,
    f = root_path pr ++ rel ∧
    1 <= length rel ∧ length rel <= S default_max_depth ∧
    forallb visible rel = true.
Proof.
  cbn [scan files]. rewrite scanned_files.
  destruct (root_listable pr); [| intros []].
  intros Hin. apply in_map_iff in Hin. destruct Hin as [g [<- Hg]].
  apply List.filter_In in Hg. destruct Hg as [Hg Hsel].
  exists (fst g). split; [reflexivity |].
  unfold selected in Hsel. apply andb_true_iff in Hsel. destruct Hsel as [Hsel Hlen].
  apply andb_true_iff in Hsel. destruct Hsel as [Hvis _].
  apply Nat.leb_le in Hlen. cbn [Nat.add] in Hlen.
  unfold listing_files in Hg. apply in_until_stop in Hg. destruct Hg as [e [_ Hg]].
  pose proof (reached_files_nonempty e) as Hne. rewrite List.Forall_forall in Hne.
  specialize (Hne g Hg). auto.
Qed.

(** X1 on [deep_project], whose file in the tenth directory is recorded. *)
Lemma scan_files_below_root_witness :
  In ["deep"; "d1"; "d2"; "d3"; "d4"; "d5"; "d6"; "d7"; "d8"; "d9"; "d10"; "kept.py"]
     (files (scan deep_project)) ∧
  exists rel,
    ["deep"; "d1"; "d2"; "d3"; "d4"; "d5"; "d6"; "d7"; "d8"; "d9"; "d10"; "kept.py"]
      = root_path deep_project ++ rel ∧
    1 <= length rel ∧ length rel <= S default_max_depth ∧
    forallb visible rel = true.
Proof.
  assert (H : In ["deep"; "d1"; "d2"; "d3"; "d4"; "d5"; "d6"; "d7"; "d8"; "d9"; "d10"; "kept.py"]
                 (files (scan deep_project)))
    by (vm_compute; auto).
  split; [exact H |].
  exact (scan_files_below_root deep_project _ H).
Defined.

Lemma reached_dirs_nonempty e :
  Forall (fun d => 1 <= length (fst d)) (reached_dirs e).
Proof.
  destruct e as [n | n l s cs | n | n]; simpl.
  - constructor.
  - constructor; [simpl; lia |].
    apply List.Forall_forall. intros d Hd. apply in_map_iff in Hd.
    destruct Hd as [g [<- _]]. simpl. lia.
  - constructor.
  - constructor.
Qed.

(** One round of the loop records exactly the selected directories that
    are reached at and below the entry, each before what it holds. *)
Lemma scan_item_dirs max_depth e :
  forall depth searchable path self, depth <= max_depth ->
    self_directories (state_of (scan_item max_depth depth searchable path self e)) =
    self_directories self ++
    map (fun d => path ++ fst d)
        (List.filter (selected max_depth depth)
           (if stops searchable e then [] else reached_dirs e)).
Proof.
  induction e as [n | n l s cs IH | n | n] using entry_tree_ind;
    intros depth searchable path self Hd;
    unfold stops; cbn [entry_name];
    (destruct (visible n) eqn:Hv;
     [rewrite scan_item_dir by exact Hv
     |rewrite scan_item_filtered by exact Hv]);
    cbn [andb state_of];
    try (destruct searchable; cbn [negb orb state_of];
         [| cbn; now rewrite app_nil_r]).
  - cbn. now rewrite app_nil_r.
  - cbn. now rewrite app_nil_r.
  - (* a directory that is recorded *)
    cbn [reached_dirs List.filter].
    assert (Hhead : selected max_depth depth ([n], true) = true).
    { unfold selected. cbn [fst snd forallb length]. rewrite Hv.
      replace (depth + 1 <=? S max_depth) with true
        by (symmetry; apply Nat.leb_le; lia).
      reflexivity. }
    rewrite Hhead. cbn [map fst]. unfold _scan_recursive.
    destruct (max_depth <? S depth) eqn:Hm.
    { apply Nat.ltb_lt in Hm.
      rewrite selected_below_deep;
        [reflexivity | exact Hm |].
      apply until_stop_nonempty, reached_dirs_nonempty. }
    apply Nat.ltb_ge in Hm.
    destruct l.
    + rewrite (loop_records self_directories reached_dirs).
      * cbn [add_directory self_directories]. rewrite <- app_assoc. f_equal.
        cbn [app]. f_equal.
        symmetry. now apply selected_below_entered.
      * eapply List.Forall_impl; [| exact IH]. intros c Hc self'.
        apply Hc. exact Hm.
    + rewrite selected_below_unlistable. reflexivity.
  - cbn [reached_dirs List.filter].
    assert (Hhead : selected max_depth depth ([n], true) = false).
    { unfold selected. cbn [fst snd forallb]. now rewrite Hv. }
    rewrite Hhead, selected_below_filtered by exact Hv.
    cbn. now rewrite app_nil_r.
  - cbn. now rewrite app_nil_r.
  - cbn. now rewrite app_nil_r.
  - cbn. now rewrite app_nil_r.
  - cbn. now rewrite app_nil_r.
Qed.

(** The directories of a scan, in full. *)
Lemma scanned_directories pr :
  self_directories (scanned pr) =
  if root_listable pr
  then map (fun d => root_path pr ++ fst d)
           (List.filter (selected default_max_depth 0)
              (listing_dirs (root_searchable pr) (root_entries pr)))
  else [].
Proof.
  unfold scanned, _scan_recursive.
  change (default_max_depth <? 0) with false. cbv iota.
  destruct (root_listable pr); [| reflexivity].
  rewrite (loop_records self_directories reached_dirs); [reflexivity |].
  apply List.Forall_forall. intros e _ self.
  apply scan_item_dirs. unfold default_max_depth. lia.
Qed.

(** X2. The directories of a scan, in the order of the traversal, are the
    directories under a listable root that the traversal reaches and whose
    parts all pass the name filter: the parent is at most [max_depth]
    levels below the root, every directory above can be listed, and in
    none of them has the loop ended, on an entry whose [is_file] raises
    [PermissionError], before it comes to the directory. A directory that
    cannot itself be listed is recorded, and so is one at depth
    [max_depth] + 1, though neither is entered. *)
Theorem scan_directories (pr : project) :
  directories (scan pr) =
  if root_listable pr
  then map (fun d => root_path pr ++ fst d)
           (List.filter (selected default_max_depth 0)
              (listing_dirs (root_searchable pr) (root_entries pr)))
  else [].
Proof. cbn [scan directories]. apply scanned_directories. Qed.

Lemma until_stop_cut {A B} (stop : A -> bool) (f : A -> list B)
    (before after : list A) (x : A) :
  stop x = true ->
  until_stop stop f (before ++ x :: after) = until_stop stop f before.
Proof.
  intros Hx. induction before as [| b before IH]; cbn [app until_stop].
  - now rewrite Hx.
  - destruct (stop b); [reflexivity | now rewrite IH].
Qed.

(** X29. A [PermissionError] from [is_file] ends the loop over the
    directory it occurs in: when the listing of the project directory
    holds an entry whose name passes the filter and whose [stat] is
    refused, the files and directories recorded are those of the listing
    cut off before that entry, whatever comes after it. *)
Theorem denied_entry_ends_listing (pr : project) (before after : list entry)
    (n : string) :
  root_entries pr = before ++ Denied n :: after ->
  visible n = true ->
  files (scan pr) = files (scan (with_entries pr before)) ∧
  directories (scan pr) = directories (scan (with_entries pr before)).
Proof.
  intros Hitems Hv. cbn [scan files directories].
  rewrite !scanned_files, !scanned_directories.
  unfold with_entries. cbn [root_path root_listable root_searchable root_entries].
  rewrite Hitems. unfold listing_files, listing_dirs.
  assert (Hstop : stops (root_searchable pr) (Denied n) = true).
  { unfold stops. cbn [entry_name]. rewrite Hv. apply orb_true_r. }
  now rewrite !until_stop_cut by exact Hstop.
Qed.

(** X29 on [interrupted_project]: [b.py] comes after the link. *)
Lemma denied_entry_ends_listing_witness :
  root_entries interrupted_project = [File "a.py"] ++ Denied "link" :: [File "b.py"] ∧
  visible "link" = true ∧
  files (scan interrupted_project)
    = files (scan (with_entries interrupted_project [File "a.py"])) ∧
  directories (scan interrupted_project)
    = directories (scan (with_entries interrupted_project [File "a.py"])).
Proof.
  assert (H1 : root_entries interrupted_project
               = [File "a.py"] ++ Denied "link" :: [File "b.py"]) by reflexivity.
  assert (H2 : visible "link" = true) by (vm_compute; reflexivity).
  split; [exact H1 |]. split; [exact H2 |].
  exact (denied_entry_ends_listing interrupted_project [File "a.py"] [File "b.py"]
           "link" H1 H2).
Defined.

End ScannerPaths.

(** ** The scanner: extensions, a second scan, special files *)

Section SortedOrder.
Context {A : Type} (le : A -> A -> bool).
Hypothesis le_total : forall a b, le a b = true \/ le b a = true.

Lemma insert_sorted_hd x y l :
  le y x = true -> HdRel (fun a b => le a b = true) y l ->
  HdRel (fun a b => le a b = true) y (insert_sorted le x l).
Proof.
  intros Hyx Hhd. destruct l as [| z l]; simpl.
  - constructor. exact Hyx.
  - destruct (le x z); constructor; [exact Hyx |].
    inversion Hhd; subst. assumption.
Qed.

Lemma insert_sorted_Sorted x l :
  Sorted (fun a b => le a b = true) l ->
  Sorted (fun a b => le a b = true) (insert_sorted le x l).
Proof.
  induction 1 as [| y l Hs IH Hhd]; simpl.
  - repeat constructor.
  - destruct (le x y) eqn:E.
    + constructor; [constructor; assumption |]. constructor. exact E.
    + constructor; [exact IH |].
      apply insert_sorted_hd; [| exact Hhd].
      destruct (le_total x y) as [H | H]; [congruence | exact H].
Qed.

(** For a total order, [sorted] returns a list in increasing order. *)
Lemma sorted_Sorted l : Sorted (fun a b => le a b = true) (sorted le l).
Proof.
  induction l as [| x l IH]; simpl; [constructor |].
  now apply insert_sorted_Sorted.
Qed.
End SortedOrder.

Lemma sorted_elements_Sorted (s : gset string) :
  Sorted (fun a b => Str.leb a b = true) (sorted Str.leb (elements s)).
Proof. apply sorted_Sorted. intros a b. apply String.leb_total. Qed.

Lemma sorted_elements_NoDup (s : gset string) :
  List.NoDup (sorted Str.leb (elements s)).
Proof.
  eapply Permutation_NoDup; [symmetry; apply sorted_perm |].
  apply NoDup_ListNoDup, NoDup_elements.
Qed.

Section ScannerState.
Import ProjectScanner.

Lemma scanned_extensions_from_files pr : extensions_from_files (scanned pr).
Proof.
  apply scanned_preserves.
  - intros path name self _ Hs e He. cbn [add_file self_files self_file_extensions] in *.
    destruct (String.eqb (PurePath.suffix (PurePath.child path name)) EmptyString) eqn:E.
    + destruct (Hs e He) as [Hne [f [Hf Hsuf]]]. split; [exact Hne |].
      exists f. split; [apply in_or_app; now left | exact Hsuf].
    + apply String.eqb_neq in E.
      apply elem_of_union in He. destruct He as [He | He].
      * apply elem_of_singleton in He. subst e. split; [exact E |].
        exists (PurePath.child path name). split; [| reflexivity].
        apply in_or_app. right. now left.
      * destruct (Hs e He) as [Hne [f [Hf Hsuf]]]. split; [exact Hne |].
        exists f. split; [apply in_or_app; now left | exact Hsuf].
  - intros path name self _ Hs. exact Hs.
  - intros e He. now apply not_elem_of_empty in He.
Qed.

(** X3. The extensions of a scan are, without repetition and in increasing
    order, exactly the non-empty suffixes of the recorded files. *)
Theorem scan_extensions (pr : project) :
  List.NoDup (extensions (scan pr)) ∧
  Sorted (fun a b => Str.leb a b = true) (extensions (scan pr)) ∧
  forall e, In e (extensions (scan pr)) <->
            e <> EmptyString ∧ exists f, In f (files (scan pr)) ∧ PurePath.suffix f = e.
Proof.
  cbn [scan extensions files]. split; [apply sorted_elements_NoDup |].
  split; [apply sorted_elements_Sorted |].
  intros e. rewrite in_sorted_elements. split.
  - apply scanned_extensions_from_files.
  - intros [Hne [f [Hf <-]]]. now apply scanned_suffixes.
Qed.

(** X4. [scan] does not reset the scanner: a second scan of the same,
    unchanged directory on the same object appends every file and every
    directory once more, so both counts double. *)
Theorem rescanned_doubles (pr : project) :
  self_files (rescanned pr) = self_files (scanned pr) ++ self_files (scanned pr) ∧
  self_directories (rescanned pr) =
    self_directories (scanned pr) ++ self_directories (scanned pr) ∧
  length (self_files (rescanned pr)) = 2 * file_count (scan pr) ∧
  length (self_directories (rescanned pr)) = 2 * dir_count (scan pr).
Proof.
  assert (Hf : self_files (rescanned pr) = self_files (scanned pr) ++ self_files (scanned pr)).
  { unfold rescanned, _scan_recursive.
    change (default_max_depth <? 0) with false. cbv iota.
    pose proof (scanned_files pr) as Hsf.
    destruct (root_listable pr).
    - rewrite (loop_records self_files reached_files).
      + f_equal. symmetry. exact Hsf.
      + apply List.Forall_forall. intros e _ self.
        apply scan_item_files. unfold default_max_depth. lia.
    - rewrite Hsf. reflexivity. }
  assert (Hd : self_directories (rescanned pr) =
               self_directories (scanned pr) ++ self_directories (scanned pr)).
  { pose proof (scanned_directories pr) as Hsd.
    unfold rescanned, _scan_recursive.
    change (default_max_depth <? 0) with false. cbv iota.
    destruct (root_listable pr).
    - rewrite (loop_records self_directories reached_dirs).
      + f_equal. symmetry. exact Hsd.
      + apply List.Forall_forall. intros e _ self.
        apply scan_item_dirs. unfold default_max_depth. lia.
    - rewrite Hsd. reflexivity. }
  repeat split; [exact Hf | exact Hd | |].
  - rewrite Hf, length_app. cbn [scan file_count]. lia.
  - rewrite Hd, length_app. cbn [scan dir_count]. lia.
Qed.

(** The inner loop of [_find_special_files], when it raises nothing, gives
    the first name for which [exists()] is true. *)
Lemma first_existing_find pr filenames r :
  first_existing pr filenames = Some r -> find (found pr) filenames = r.
Proof.
  induction filenames as [| f fs IH]; cbn [first_existing find]; intros H.
  - now injection H as <-.
  - unfold found at 1.
    destruct (candidate_exists pr f) as [[|] |];
      [now injection H as <- | now apply IH | discriminate H].
Qed.

(** Once a test has raised, the outer loop of [_find_special_files] is
    left. *)
Lemma special_fold_raised pr rows :
  fold_left
    (fun (special : option (gmap string Path)) (row : string * list string) =>
       match special with
       | None => None
       | Some special =>
           match first_existing pr (snd row) with
           | None => None
           | Some (Some filename) =>
               Some (<[ fst row := PurePath.joinpath (root_path pr) filename ]> special)
           | Some None => Some special
           end
       end) rows None = None.
Proof. induction rows as [| r rows IH]; cbn [fold_left]; [reflexivity | exact IH]. Qed.

(** The fold of [_find_special_files] leaves a category alone that no row
    names. *)
Lemma special_fold_other pr rows (acc special : gmap string Path) category :
  ~ In category (map fst rows) ->
  fold_left
    (fun (special : option (gmap string Path)) (row : string * list string) =>
       match special with
       | None => None
       | Some special =>
           match first_existing pr (snd row) with
           | None => None
           | Some (Some filename) =>
               Some (<[ fst row := PurePath.joinpath (root_path pr) filename ]> special)
           | Some None => Some special
           end
       end) rows (Some acc) = Some special ->
  special !! category = acc !! category.
Proof.
  revert acc. induction rows as [| r rows IH]; intros acc Hnot; cbn [fold_left].
  - intros H. now injection H as <-.
  - cbn [map In] in Hnot.
    destruct (first_existing pr (snd r)) as [[filename |] |]; intros H.
    + rewrite (IH _ ltac:(tauto) H). apply lookup_insert_ne. tauto.
    + apply (IH _ ltac:(tauto) H).
    + rewrite special_fold_raised in H. discriminate H.
Qed.

(** For rows with distinct categories, the fold records under a category
    the first candidate of its row that exists. *)
Lemma special_fold_row pr rows (acc special : gmap string Path) category filenames :
  List.NoDup (map fst rows) ->
  In (category, filenames) rows ->
  fold_left
    (fun (special : option (gmap string Path)) (row : string * list string) =>
       match special with
       | None => None
       | Some special =>
           match first_existing pr (snd row) with
           | None => None
           | Some (Some filename) =>
               Some (<[ fst row := PurePath.joinpath (root_path pr) filename ]> special)
           | Some None => Some special
           end
       end) rows (Some acc) = Some special ->
  special !! category =
  match find (found pr) filenames with
  | Some filename => Some (PurePath.joinpath (root_path pr) filename)
  | None => acc !! category
  end.
Proof.
  revert acc. induction rows as [| r rows IH]; intros acc Hnd Hin; [destruct Hin |].
  cbn [map] in Hnd. inversion Hnd as [| k ks Hk Hks]; subst.
  cbn [fold_left]. destruct Hin as [-> | Hin].
  - cbn [fst snd] in *.
    destruct (first_existing pr filenames) as [r |] eqn:E;
      [| intros H; rewrite special_fold_raised in H; discriminate H].
    rewrite (first_existing_find pr filenames r E).
    destruct r as [filename |]; intros H;
      rewrite (special_fold_other pr rows _ special category Hk H);
      [apply lookup_insert_eq | reflexivity].
  - assert (Hne : fst r <> category).
    { intros E. apply Hk. rewrite E.
      change category with (fst (category, filenames)). now apply in_map. }
    destruct (first_existing pr (snd r)) as [[filename |] |]; intros H.
    + rewrite (IH _ Hks Hin H).
      destruct (find (found pr) filenames); [reflexivity |].
      now apply lookup_insert_ne.
    + apply (IH _ Hks Hin H).
    + rewrite special_fold_raised in H. discriminate H.
Qed.

Lemma important_categories_distinct : List.NoDup (map fst important).
Proof.
  apply NoDup_ListNoDup. eapply bool_decide_unpack. vm_compute. exact I.
Qed.

(** The dict [scan] returns is the one the model calls [scan], with the
    special files that were found. *)
Lemma scan_outcome_returns pr sr :
  scan_outcome pr = Some sr ->
  sr = scan pr ∧ _find_special_files pr = Some (special_files sr).
Proof.
  unfold scan_outcome. destruct (_find_special_files pr) as [special |] eqn:E;
    [| discriminate].
  intros H. injection H as <-. split; [reflexivity |].
  cbn [scan special_files]. now rewrite E.
Qed.

(** The special files of a dict that [scan] returns. *)
Lemma special_files_lookup pr sr category filenames :
  scan_outcome pr = Some sr ->
  In (category, filenames) important ->
  special_files sr !! category =
  match find (found pr) filenames with
  | Some filename => Some (PurePath.joinpath (root_path pr) filename)
  | None => None
  end.
Proof.
  intros Hsr Hin. apply scan_outcome_returns in Hsr. destruct Hsr as [_ Hsp].
  unfold _find_special_files in Hsp.
  rewrite (special_fold_row pr important ∅ (special_files sr) category filenames
             important_categories_distinct Hin Hsp).
  destruct (find (found pr) filenames); [reflexivity |].
  apply lookup_empty.
Qed.

(** X5. When [scan] returns, its dict holds under each of the nine
    categories of [_find_special_files] the first candidate name, in the
    order the table lists them, for which [exists()] is true under the
    project path, and nothing when there is none. The test is on existence
    alone: the scanner's name filter plays no part. *)
Theorem special_file_first_candidate (pr : project) (sr : ScanResult)
    (category : string) (filenames : list string) :
  scan_outcome pr = Some sr ->
  In (category, filenames) important ->
  special_files sr !! category =
  match find (found pr) filenames with
  | Some filename => Some (PurePath.joinpath (root_path pr) filename)
  | None => None
  end.
Proof. apply special_files_lookup. Qed.

(** X5 on [licensed_project], which holds [COPYING] and [LICENSE.txt]. *)
Lemma special_file_first_candidate_witness :
  scan_outcome licensed_project = Some (scan licensed_project) ∧
  In ("license", ["LICENSE"; "LICENSE.md"; "LICENSE.txt"; "COPYING"]) important ∧
  special_files (scan licensed_project) !! "license" =
  match find (found licensed_project)
             ["LICENSE"; "LICENSE.md"; "LICENSE.txt"; "COPYING"] with
  | Some filename => Some (PurePath.joinpath (root_path licensed_project) filename)
  | None => None
  end.
Proof.
  assert (H0 : scan_outcome licensed_project = Some (scan licensed_project))
    by (vm_compute; reflexivity).
  assert (H : In ("license", ["LICENSE"; "LICENSE.md"; "LICENSE.txt"; "COPYING"]) important)
    by (right; left; reflexivity).
  split; [exact H0 |]. split; [exact H |].
  exact (special_file_first_candidate licensed_project (scan licensed_project)
           "license" _ H0 H).
Defined.

(** X28. [_scan_recursive] swallows the [PermissionError] of a directory
    it may not search, but [_find_special_files] does not: for a project
    directory that cannot be searched [scan] raises it, at the first
    candidate, and returns no dict. *)
Theorem scan_raises_when_unsearchable (pr : project) :
  root_searchable pr = false -> scan_outcome pr = None.
Proof.
  intros Hs. unfold scan_outcome.
  assert (H : _find_special_files pr = None); [| now rewrite H].
  unfold _find_special_files, important. cbn [fold_left snd first_existing].
  assert (Hc : candidate_exists pr "README.md" = None).
  { unfold candidate_exists. rewrite Hs.
    change (PurePath.parse_parts "README.md") with ["README.md"]. reflexivity. }
  rewrite Hc. reflexivity.
Qed.

(** X28 on [unsearchable_project]. *)
Lemma scan_raises_when_unsearchable_witness :
  root_searchable unsearchable_project = false ∧
  scan_outcome unsearchable_project = None.
Proof.
  split; [reflexivity |].
  exact (scan_raises_when_unsearchable unsearchable_project eq_refl).
Defined.

End ScannerState.

(** ** The detector: languages *)

Section DetectorLanguages.
Import TechDetector.

(** X6. The detected languages are, without repetition and in increasing
    order, exactly the languages [LANGUAGE_MAP] gives for the extensions of
    the scan result. *)
Theorem detect_languages_sorted (sr : ScanResult) :
  List.NoDup (_detect_languages sr) ∧
  Sorted (fun a b => Str.leb a b = true) (_detect_languages sr) ∧
  forall lang, In lang (_detect_languages sr) <->
               exists ext, In ext (extensions sr) ∧ LANGUAGE_MAP !! ext = Some lang.
Proof.
  split; [apply sorted_elements_NoDup |].
  split; [apply sorted_elements_Sorted |].
  intros lang. apply detect_languages_spec.
Qed.

Lemma count_of_count_language lang lang' counts :
  count_of lang' (count_language lang counts) =
  count_of lang' counts + (if String.eqb lang lang' then 1 else 0).
Proof.
  unfold count_of. induction counts as [| [l c] rest IH]; cbn [count_language find fst snd].
  - destruct (String.eqb lang lang'); reflexivity.
  - destruct (String.eqb l lang) eqn:E; cbn [find fst snd].
    + apply String.eqb_eq in E. subst l.
      destruct (String.eqb lang lang'); cbn [snd]; lia.
    + destruct (String.eqb l lang') eqn:E'.
      * apply String.eqb_eq in E'. subst l.
        rewrite String.eqb_sym, E. cbn [snd]. lia.
      * exact IH.
Qed.

Lemma count_language_NoDup lang counts :
  List.NoDup (map fst counts) -> List.NoDup (map fst (count_language lang counts)).
Proof.
  induction counts as [| [l c] rest IH]; cbn [count_language map fst]; intros Hnd.
  - repeat constructor. intros [].
  - inversion Hnd as [| k ks Hk Hks]; subst.
    destruct (String.eqb l lang) eqn:E; cbn [map fst].
    + constructor; assumption.
    + constructor; [| now apply IH].
      intros Hin. apply count_language_keys in Hin. destruct Hin as [-> | Hin].
      * rewrite String.eqb_refl in E. discriminate.
      * contradiction.
Qed.

(** The counts of [_get_primary_language] are the numbers of files, one
    entry per language. *)
Lemma lang_counts_spec sr :
  List.NoDup (map fst (lang_counts sr)) ∧
  forall lang, count_of lang (lang_counts sr) = files_of_language sr lang.
Proof.
  unfold lang_counts, files_of_language.
  assert (G : forall fs acc,
    List.NoDup (map fst acc) ->
    List.NoDup (map fst (fold_left (fun counts file =>
                  match LANGUAGE_MAP !! PurePath.suffix file with
                  | Some lang => count_language lang counts
                  | None => counts
                  end) fs acc)) ∧
    forall lang,
      count_of lang (fold_left (fun counts file =>
                  match LANGUAGE_MAP !! PurePath.suffix file with
                  | Some lang => count_language lang counts
                  | None => counts
                  end) fs acc) =
      count_of lang acc +
      length (List.filter
                (fun f => bool_decide (LANGUAGE_MAP !! PurePath.suffix f = Some lang)) fs)).
  { induction fs as [| f fs IH]; intros acc Hnd; cbn [fold_left List.filter length].
    - split; [exact Hnd | intros lang; lia].
    - destruct (LANGUAGE_MAP !! PurePath.suffix f) as [l |] eqn:E.
      + destruct (IH (count_language l acc) (count_language_NoDup l acc Hnd)) as [H1 H2].
        split; [exact H1 |]. intros lang. rewrite H2, count_of_count_language.
        destruct (String.eqb l lang) eqn:El.
        * apply String.eqb_eq in El. subst l.
          rewrite bool_decide_eq_true_2 by reflexivity. cbn [length]. lia.
        * apply String.eqb_neq in El.
          rewrite bool_decide_eq_false_2 by congruence. lia.
      + destruct (IH acc Hnd) as [H1 H2]. split; [exact H1 |].
        intros lang. rewrite H2.
        rewrite bool_decide_eq_false_2 by congruence. lia. }
  destruct (G (files sr) [] (List.NoDup_nil _)) as [H1 H2].
  split; [exact H1 |]. intros lang. rewrite H2. reflexivity.
Qed.

Lemma max_count_max best items :
  forall x, In x (best :: items) -> snd x <= snd (max_count best items).
Proof.
  unfold max_count. revert best.
  induction items as [| y items IH]; intros best x Hin; cbn [fold_left].
  - destruct Hin as [<- | []]. lia.
  - destruct Hin as [<- | [<- | Hin]].
    + destruct (snd best <? snd y) eqn:E.
      * apply Nat.ltb_lt in E.
        specialize (IH y y (or_introl eq_refl)). lia.
      * apply (IH best best). now left.
    + destruct (snd best <? snd y) eqn:E.
      * apply (IH y y). now left.
      * apply Nat.ltb_ge in E.
        specialize (IH best best (or_introl eq_refl)). lia.
    + apply IH. now right.
Qed.

Lemma count_of_entry counts p :
  List.NoDup (map fst counts) -> In p counts -> count_of (fst p) counts = snd p.
Proof.
  unfold count_of. induction counts as [| q rest IH]; intros Hnd Hin; [destruct Hin |].
  cbn [map] in Hnd. inversion Hnd as [| k ks Hk Hks]; subst.
  cbn [find]. destruct Hin as [-> | Hin].
  - now rewrite String.eqb_refl.
  - destruct (String.eqb (fst q) (fst p)) eqn:E.
    + apply String.eqb_eq in E. exfalso. apply Hk. rewrite E. now apply in_map.
    + now apply IH.
Qed.

Lemma count_of_positive lang counts :
  0 < count_of lang counts ->
  exists p, In p counts ∧ fst p = lang ∧ snd p = count_of lang counts.
Proof.
  unfold count_of. destruct (find _ counts) as [p |] eqn:E; [| lia].
  intros _. apply find_some in E. destruct E as [Hin Heq].
  apply String.eqb_eq in Heq. eauto.
Qed.

(** X7. The primary language has the most files: no language has more
    files with a suffix mapped to it than the primary language has. (With
    no mapped file every count is zero and the answer is ["Unknown"].) *)
Theorem primary_language_plurality (sr : ScanResult) (lang : string) :
  files_of_language sr lang <= files_of_language sr (_get_primary_language sr).
Proof.
  destruct (lang_counts_spec sr) as [Hnd Hcount].
  rewrite <- !Hcount.
  destruct (Nat.eq_dec (count_of lang (lang_counts sr)) 0) as [Hz | Hz]; [lia |].
  destruct (count_of_positive lang (lang_counts sr)) as [p [Hp [_ Hsnd]]]; [lia |].
  unfold _get_primary_language.
  destruct (lang_counts sr) as [| first rest] eqn:E; [destruct Hp |].
  rewrite <- Hsnd.
  rewrite (count_of_entry (first :: rest) (max_count first rest) Hnd (max_count_in first rest)).
  now apply max_count_max.
Qed.

(** X8. The primary language is never the empty string: it is ["Unknown"]
    or the language [LANGUAGE_MAP] gives for the suffix of some file. *)
Theorem primary_language_named (sr : ScanResult) :
  String.eqb (_get_primary_language sr) EmptyString = false ∧
  (_get_primary_language sr = "Unknown" ∨
   exists f, In f (files sr) ∧
             LANGUAGE_MAP !! PurePath.suffix f = Some (_get_primary_language sr)).
Proof.
  split.
  - apply String.eqb_neq.
    destruct (lang_counts sr) as [| first rest] eqn:E.
    + unfold _get_primary_language. rewrite E. discriminate.
    + assert (Hp : In (_get_primary_language sr) (map fst (lang_counts sr)))
        by (apply primary_language_counted; rewrite E; discriminate).
      apply lang_counts_keys in Hp. destruct Hp as [f [_ Hl]].
      assert (H : map_Forall (fun _ v => v <> EmptyString) LANGUAGE_MAP).
      { eapply bool_decide_unpack. vm_compute. exact I. }
      exact (H _ _ Hl).
  - destruct (lang_counts sr) as [| first rest] eqn:E.
    + left. unfold _get_primary_language. now rewrite E.
    + right. apply lang_counts_keys, primary_language_counted.
      rewrite E. discriminate.
Qed.

End DetectorLanguages.

(** ** The detector: tools and package managers *)

Section DetectorTools.
Import TechDetector.

(** X9. The tool list is a sublist of [Docker; CI/CD; Kubernetes; Make], in
    that order and so without repetition; it holds ['Docker'], ['CI/CD']
    and ['Make'] exactly when the scan found the special file of that
    category, and ['CI/CD'] exactly when [_has_ci] answers true. *)
Theorem detect_tools_from_special_files (sr : ScanResult) :
  sublist (_detect_tools sr) ["Docker"; "CI/CD"; "Kubernetes"; "Make"] ∧
  (In "Docker" (_detect_tools sr) <-> has_key "docker" (special_files sr) = true) ∧
  (In "CI/CD" (_detect_tools sr) <-> _has_ci sr = true) ∧
  (In "Make" (_detect_tools sr) <-> has_key "makefile" (special_files sr) = true).
Proof.
  unfold _detect_tools, _has_ci.
  destruct (has_key "docker" (special_files sr)),
           (has_key "ci" (special_files sr)),
           (has_key "makefile" (special_files sr)),
           (any_path_contains ".yaml" sr || any_path_contains ".yml" sr),
           (any_path_contains "k8s" sr || any_path_contains "kubernetes" sr);
    cbn [app];
    (split; [repeat first [apply sublist_nil | apply sublist_skip | apply sublist_cons] |]);
    repeat split; cbn [In];
    try (intros _; reflexivity);
    try (intros _; tauto);
    try (intros H; discriminate H);
    try (intros H; exfalso;
         repeat (destruct H as [H | H]; [discriminate H |]); exact H).
Qed.

Lemma sublist_map_fst_filter {A B} (P : A * B -> bool) (rows : list (A * B)) :
  sublist (map fst (List.filter P rows)) (map fst rows).
Proof.
  induction rows as [| r rows IH]; cbn [List.filter map].
  - constructor.
  - destruct (P r); cbn [map]; [now apply sublist_skip | now apply sublist_cons].
Qed.

(** X10. The package managers come out in the order of the table, each at
    most once; a manager is among them exactly when one of its marker
    names is the name of a recorded file, at any depth. *)
Theorem package_managers_in_table_order (sr : ScanResult) :
  sublist (_detect_package_managers sr) (map fst indicators) ∧
  forall manager,
    In manager (_detect_package_managers sr) <->
    exists markers,
      In (manager, markers) indicators ∧
      exists f, In f (files sr) ∧ In (PurePath.name f) markers.
Proof.
  split; [apply sublist_map_fst_filter |].
  intros manager. unfold _detect_package_managers.
  rewrite in_map_iff. split.
  - intros [[m markers] [Hm Hin]]. cbn [fst] in Hm. subst m.
    apply List.filter_In in Hin. destruct Hin as [Hin HP]. cbn [snd] in HP.
    exists markers. split; [exact Hin |].
    apply existsb_exists in HP. destruct HP as [marker [Hmarker Hb]].
    apply bool_decide_eq_true in Hb. apply in_file_names in Hb.
    destruct Hb as [f [Hf Hn]]. exists f. split; [exact Hf |]. now rewrite Hn.
  - intros [markers [Hin [f [Hf Hn]]]]. exists (manager, markers).
    split; [reflexivity |]. apply List.filter_In. split; [exact Hin |].
    cbn [snd]. apply existsb_exists. exists (PurePath.name f). split; [exact Hn |].
    apply bool_decide_eq_true, in_file_names. eauto.
Qed.

Lemma scan_ignored_file_name pr f :
  In f (files (ProjectScanner.scan pr)) ->
  PurePath.name f ∉ ProjectScanner.IGNORE_FILES.
Proof.
  intros Hin. destruct (scanned_kept pr) as [Hf _]. rewrite List.Forall_forall in Hf.
  destruct (Hf f Hin) as [_ [Hi _]]. exact Hi.
Qed.

(** X11. On what [scan] returns the lock files never count, being in
    [IGNORE_FILES]: ['npm'] is detected exactly when some recorded file is
    named [package.json], and ['poetry'] exactly when one is named
    [pyproject.toml]. *)
Theorem scan_lock_files_never_count (pr : project) :
  (In "npm" (_detect_package_managers (ProjectScanner.scan pr)) <->
   exists f, In f (files (ProjectScanner.scan pr)) ∧ PurePath.name f = "package.json") ∧
  (In "poetry" (_detect_package_managers (ProjectScanner.scan pr)) <->
   exists f, In f (files (ProjectScanner.scan pr)) ∧ PurePath.name f = "pyproject.toml").
Proof.
  assert (Hlock1 : "package-lock.json" ∈ ProjectScanner.IGNORE_FILES)
    by (eapply bool_decide_unpack; vm_compute; exact I).
  assert (Hlock2 : "poetry.lock" ∈ ProjectScanner.IGNORE_FILES)
    by (eapply bool_decide_unpack; vm_compute; exact I).
  destruct (package_managers_in_table_order (ProjectScanner.scan pr)) as [_ Hspec].
  split; rewrite Hspec; split.
  - intros [markers [Hrow [f [Hf Hn]]]]. exists f. split; [exact Hf |].
    unfold indicators in Hrow. cbn [In] in Hrow.
    repeat (destruct Hrow as [Hrow | Hrow]; [try discriminate Hrow |]);
      [| destruct Hrow].
    injection Hrow as <-. cbn [In] in Hn.
    destruct Hn as [Hn | [Hn | []]]; [now symmetry |].
    exfalso. apply (scan_ignored_file_name pr f Hf). rewrite <- Hn. exact Hlock1.
  - intros [f [Hf Hn]]. exists ["package.json"; "package-lock.json"].
    split; [unfold indicators; cbn [In]; auto |].
    exists f. split; [exact Hf |]. rewrite Hn. now left.
  - intros [markers [Hrow [f [Hf Hn]]]]. exists f. split; [exact Hf |].
    unfold indicators in Hrow. cbn [In] in Hrow.
    repeat (destruct Hrow as [Hrow | Hrow]; [try discriminate Hrow |]);
      [| destruct Hrow].
    injection Hrow as <-. cbn [In] in Hn.
    destruct Hn as [Hn | [Hn | []]]; [now symmetry |].
    exfalso. apply (scan_ignored_file_name pr f Hf). rewrite <- Hn. exact Hlock2.
  - intros [f [Hf Hn]]. exists ["pyproject.toml"; "poetry.lock"].
    split; [unfold indicators; cbn [In]; auto |].
    exists f. split; [exact Hf |]. rewrite Hn. now left.
Qed.

End DetectorTools.

(** ** The detector: frameworks *)

Section DetectorFrameworks.
Import TechDetector.

Lemma in_when b name fw : fw ∈ when b name -> fw = name.
Proof.
  unfold when. destruct b; intros H.
  - now apply elem_of_singleton in H.
  - now apply not_elem_of_empty in H.
Qed.

Lemma indicated_frameworks_keys sr fw :
  fw ∈ indicated_frameworks sr -> In fw (map fst FRAMEWORK_INDICATORS).
Proof.
  unfold indicated_frameworks.
  assert (G : forall rows (acc : gset string),
    fw ∈ fold_left
      (fun (frameworks : gset string) (r : string * list string) =>
         if existsb (fun indicator => any_path_contains indicator sr) (snd r)
         then {[ fst r ]} ∪ frameworks else frameworks) rows acc ->
    fw ∈ acc ∨ In fw (map fst rows)).
  { induction rows as [| r rows IH]; intros acc; cbn [fold_left map In].
    - auto.
    - intros H. apply IH in H. destruct H as [H | H]; [| auto].
      destruct (existsb _ (snd r)); [| auto].
      apply elem_of_union in H. destruct H as [H | H]; [| auto].
      apply elem_of_singleton in H. auto. }
  intros H. apply G in H. destruct H as [H | H]; [| exact H].
  now apply not_elem_of_empty in H.
Qed.

Lemma parse_package_json_names d sr fw :
  fw ∈ _parse_package_json d sr ->
  In fw ["React"; "Next.js"; "Vue.js"; "Express"; "Angular"].
Proof.
  unfold _parse_package_json.
  destruct (special_files sr !! "package") as [p |];
    [| intros H; now apply not_elem_of_empty in H].
  destruct (manifest_dependencies d p) as [deps |];
    [| intros H; now apply not_elem_of_empty in H].
  intros H. repeat (apply elem_of_union in H; destruct H as [H | H]);
    apply in_when in H; subst fw; cbn [In]; auto 10.
Qed.

Lemma parse_requirements_names d sr fw :
  fw ∈ _parse_requirements d sr ->
  In fw ["Django"; "Flask"; "FastAPI"; "Streamlit"; "Pytest"].
Proof.
  unfold _parse_requirements.
  destruct (special_files sr !! "requirements") as [p |];
    [| intros H; now apply not_elem_of_empty in H].
  destruct (text_lower d p) as [content |];
    [| intros H; now apply not_elem_of_empty in H].
  intros H. repeat (apply elem_of_union in H; destruct H as [H | H]);
    apply in_when in H; subst fw; cbn [In]; auto 10.
Qed.

(** The frameworks are those the three sources give. *)
Lemma detect_frameworks_members d sr fw :
  In fw (_detect_frameworks d sr) ->
  fw ∈ indicated_frameworks sr ∨ fw ∈ _parse_package_json d sr
  ∨ fw ∈ _parse_requirements d sr.
Proof.
  unfold _detect_frameworks. rewrite in_sorted_elements.
  destruct (has_key "requirements" (special_files sr));
    destruct (has_key "package" (special_files sr)); intros H;
    repeat (apply elem_of_union in H; destruct H as [H | H]); auto.
Qed.

(** X12. The detected frameworks come without repetition, in increasing
    order, and every one is a key of [FRAMEWORK_INDICATORS]: neither manifest
    can add a name the table does not know. *)
Theorem detect_frameworks_vocabulary (d : disk) (sr : ScanResult) :
  List.NoDup (_detect_frameworks d sr) ∧
  Sorted (fun a b => Str.leb a b = true) (_detect_frameworks d sr) ∧
  Forall (fun fw => In fw (map fst FRAMEWORK_INDICATORS)) (_detect_frameworks d sr).
Proof.
  split; [apply sorted_elements_NoDup |].
  split; [apply sorted_elements_Sorted |].
  apply List.Forall_forall. intros fw Hin.
  apply detect_frameworks_members in Hin. destruct Hin as [H | [H | H]].
  - now apply indicated_frameworks_keys in H.
  - apply parse_package_json_names in H. cbn [In] in H.
    repeat (destruct H as [<- | H]; [vm_compute; tauto |]). destruct H.
  - apply parse_requirements_names in H. cbn [In] in H.
    repeat (destruct H as [<- | H]; [vm_compute; tauto |]). destruct H.
Qed.

(** X13. When neither manifest can be read or parsed, the exceptions being
    swallowed, the frameworks are those the path indicators give, as if no
    manifest had been found. *)
Theorem frameworks_when_manifests_unreadable (d : disk) (sr : ScanResult) :
  (forall p, manifest_dependencies d p = None) ->
  (forall p, text_lower d p = None) ->
  _detect_frameworks d sr = sorted Str.leb (elements (indicated_frameworks sr)).
Proof.
  intros Hm Ht. unfold _detect_frameworks.
  assert (Hp : _parse_package_json d sr = ∅).
  { unfold _parse_package_json. destruct (special_files sr !! "package"); [| reflexivity].
    now rewrite Hm. }
  assert (Hr : _parse_requirements d sr = ∅).
  { unfold _parse_requirements.
    destruct (special_files sr !! "requirements"); [| reflexivity].
    now rewrite Ht. }
  rewrite Hp, Hr.
  destruct (has_key "package" (special_files sr));
    destruct (has_key "requirements" (special_files sr));
    rewrite ?union_empty_r_L; reflexivity.
Qed.

(** X13 on the scan of [js_project] read from [unreadable_disk]. *)
Lemma frameworks_when_manifests_unreadable_witness :
  (forall p, manifest_dependencies unreadable_disk p = None) ∧
  (forall p, text_lower unreadable_disk p = None) ∧
  _detect_frameworks unreadable_disk (ProjectScanner.scan js_project) =
  sorted Str.leb (elements (indicated_frameworks (ProjectScanner.scan js_project))).
Proof.
  split; [reflexivity |]. split; [reflexivity |].
  exact (frameworks_when_manifests_unreadable unreadable_disk
           (ProjectScanner.scan js_project) (fun _ => eq_refl) (fun _ => eq_refl)).
Defined.

End DetectorFrameworks.

(** ** The detector reads the project path too *)

Section PathText.

Lemma append_cons (x : ascii) (a b : string) :
  String x a +:+ b = String x (a +:+ b).
Proof. reflexivity. Qed.

Lemma append_assoc (a b c : string) : (a +:+ b) +:+ c = a +:+ (b +:+ c).
Proof.
  induction a as [| x a IH]; [reflexivity |].
  now rewrite !append_cons, IH.
Qed.

Lemma prefix_append (sub a b : string) :
  String.prefix sub a = true -> String.prefix sub (a +:+ b) = true.
Proof.
  revert a. induction sub as [| c sub IH]; intros a H;
    [destruct (a +:+ b); reflexivity |].
  destruct a as [| x a]; [discriminate H |].
  rewrite append_cons. cbn [String.prefix] in *.
  destruct (ascii_dec c x); [now apply IH | discriminate].
Qed.

(** What a text contains, every text that extends it contains. *)
Lemma contains_append (sub a b : string) :
  Str.contains sub a = true -> Str.contains sub (a +:+ b) = true.
Proof.
  induction a as [| x a IH]; intros H.
  - simpl in H. rewrite orb_false_r in H.
    destruct sub; [| discriminate].
    destruct b; reflexivity.
  - cbn [Str.contains] in H. apply orb_true_iff in H.
    change (String x a +:+ b) with (String x (a +:+ b)).
    cbn [Str.contains]. apply orb_true_iff. destruct H as [H | H].
    + left. now apply (prefix_append sub (String x a) b).
    + right. now apply IH.
Qed.

Lemma lower_append (a b : string) :
  Str.lower (a +:+ b) = Str.lower a +:+ Str.lower b.
Proof.
  induction a as [| x a IH]; [reflexivity |].
  rewrite append_cons. cbn [Str.lower]. now rewrite append_cons, IH.
Qed.

Lemma join_append sep (l r : list string) :
  l <> [] -> r <> [] ->
  Str.join sep (l ++ r) = Str.join sep l +:+ sep +:+ Str.join sep r.
Proof.
  unfold Str.join. intros Hl Hr.
  induction l as [| x l IH]; [congruence |].
  destruct l as [| y l].
  - destruct r as [| z r]; [congruence |]. reflexivity.
  - change ((x :: y :: l) ++ r) with (x :: ((y :: l) ++ r)).
    change (String.concat sep (x :: (y :: l) ++ r))
      with (x +:+ sep +:+ String.concat sep ((y :: l) ++ r)).
    rewrite IH by discriminate.
    change (String.concat sep (x :: y :: l))
      with (x +:+ sep +:+ String.concat sep (y :: l)).
    now rewrite !append_assoc.
Qed.

(** The text of a path below a directory starts with the text of the
    directory. *)
Lemma str_extends (root rel : Path) :
  root <> [] -> rel <> [] ->
  exists rest, PurePath.str (root ++ rel) = PurePath.str root +:+ rest.
Proof.
  intros Hroot Hrel. destruct root as [| a root]; [congruence |].
  change ((a :: root) ++ rel) with (a :: (root ++ rel)). unfold PurePath.str.
  destruct (String.eqb a "/").
  - destruct root as [| b root].
    + exists (Str.join "/" rel). reflexivity.
    + rewrite join_append by (assumption || discriminate).
      exists ("/" +:+ Str.join "/" rel). symmetry. apply append_assoc.
  - change (a :: root ++ rel) with ((a :: root) ++ rel).
    rewrite join_append by (assumption || discriminate).
    eexists. reflexivity.
Qed.

(** Every recorded file carries in its text what the text of the project
    path contains. *)
Lemma scan_paths_carry_root pr sub f :
  root_path pr <> [] ->
  Str.contains sub (PurePath.str (root_path pr)) = true ->
  In f (files (ProjectScanner.scan pr)) ->
  Str.contains sub (PurePath.str f) = true.
Proof.
  intros Hroot Hsub Hin.
  apply scan_files_extend_root in Hin. destruct Hin as [rel [Hrel ->]].
  destruct (str_extends (root_path pr) rel Hroot Hrel) as [rest ->].
  now apply contains_append.
Qed.

(** X14. The test indicators are looked for in the whole text of a path,
    the project directory's own path included: when that path, lowered,
    contains one of them, a scan that records any file at all has tests. *)
Theorem has_tests_from_project_path (pr : project) (indicator : string) :
  In indicator ["test"; "tests"; "spec"; "__tests__"; "pytest"; "jest"] ->
  root_path pr <> [] ->
  files (ProjectScanner.scan pr) <> [] ->
  Str.contains indicator (Str.lower (PurePath.str (root_path pr))) = true ->
  TechDetector._has_tests (ProjectScanner.scan pr) = true.
Proof.
  intros Hind Hroot Hfiles Hsub.
  destruct (files (ProjectScanner.scan pr)) as [| f fs] eqn:E; [congruence |].
  assert (Hin : In f (files (ProjectScanner.scan pr))) by (rewrite E; now left).
  unfold TechDetector._has_tests. apply existsb_exists. exists f.
  split; [exact Hin |]. apply existsb_exists. exists indicator. split; [exact Hind |].
  apply scan_files_extend_root in Hin. destruct Hin as [rel [Hrel ->]].
  destruct (str_extends (root_path pr) rel Hroot Hrel) as [rest ->].
  rewrite lower_append. now apply contains_append.
Qed.

(** X14 on [latest_flask_project]: a lone text file in [work/latest-flask]. *)
Lemma has_tests_from_project_path_witness :
  In "test" ["test"; "tests"; "spec"; "__tests__"; "pytest"; "jest"] ∧
  root_path latest_flask_project <> [] ∧
  files (ProjectScanner.scan latest_flask_project) <> [] ∧
  Str.contains "test" (Str.lower (PurePath.str (root_path latest_flask_project))) = true ∧
  TechDetector._has_tests (ProjectScanner.scan latest_flask_project) = true.
Proof.
  assert (H1 : In "test" ["test"; "tests"; "spec"; "__tests__"; "pytest"; "jest"])
    by (now left).
  assert (H2 : root_path latest_flask_project <> []) by discriminate.
  assert (H3 : files (ProjectScanner.scan latest_flask_project) <> [])
    by (vm_compute; discriminate).
  assert (H4 : Str.contains "test"
                 (Str.lower (PurePath.str (root_path latest_flask_project))) = true)
    by (vm_compute; reflexivity).
  do 4 (split; [assumption |]).
  exact (has_tests_from_project_path latest_flask_project "test" H1 H2 H3 H4).
Defined.

(** X15. The framework indicators too are looked for in the whole text of a
    path: an indicator of a framework that the project path contains makes
    every scan that records a file report that framework. *)
Theorem framework_from_project_path (d : disk) (pr : project)
    (framework indicator : string) (indicator_list : list string) :
  In (framework, indicator_list) TechDetector.FRAMEWORK_INDICATORS ->
  In indicator indicator_list ->
  root_path pr <> [] ->
  files (ProjectScanner.scan pr) <> [] ->
  Str.contains indicator (PurePath.str (root_path pr)) = true ->
  In framework (TechDetector._detect_frameworks d (ProjectScanner.scan pr)).
Proof.
  intros Hrow Hind Hroot Hfiles Hsub.
  destruct (files (ProjectScanner.scan pr)) as [| f fs] eqn:E; [congruence |].
  assert (Hin : In f (files (ProjectScanner.scan pr))) by (rewrite E; now left).
  apply detect_frameworks_indicated.
  apply (indicated_frameworks_row (ProjectScanner.scan pr) (framework, indicator_list) Hrow).
  cbn [snd]. apply existsb_exists. exists indicator. split; [exact Hind |].
  apply any_path_contains_spec. exists f. split; [exact Hin |].
  now apply (scan_paths_carry_root pr indicator f).
Qed.

End PathText.

(** X15 on [latest_flask_project], whose directory name contains [flask]. *)
Lemma framework_from_project_path_witness :
  In ("Flask", ["app.py"; "flask"]) TechDetector.FRAMEWORK_INDICATORS ∧
  In "flask" ["app.py"; "flask"] ∧
  root_path latest_flask_project <> [] ∧
  files (ProjectScanner.scan latest_flask_project) <> [] ∧
  Str.contains "flask" (PurePath.str (root_path latest_flask_project)) = true ∧
  In "Flask" (TechDetector._detect_frameworks unreadable_disk
                (ProjectScanner.scan latest_flask_project)).
Proof.
  assert (H1 : In ("Flask", ["app.py"; "flask"]) TechDetector.FRAMEWORK_INDICATORS)
    by (unfold TechDetector.FRAMEWORK_INDICATORS;
        repeat first [left; reflexivity | right]).
  assert (H2 : In "flask" ["app.py"; "flask"]) by (right; left; reflexivity).
  assert (H3 : root_path latest_flask_project <> []) by discriminate.
  assert (H4 : files (ProjectScanner.scan latest_flask_project) <> [])
    by (vm_compute; discriminate).
  assert (H5 : Str.contains "flask" (PurePath.str (root_path latest_flask_project)) = true)
    by (vm_compute; reflexivity).
  do 5 (split; [assumption |]).
  exact (framework_from_project_path unreadable_disk latest_flask_project
           "Flask" "flask" ["app.py"; "flask"] H1 H2 H3 H4 H5).
Defined.

(** ** The detector: what the manifests add *)

Section ManifestFrameworks.
Import TechDetector.

Lemma has_key_lookup {V} (k : string) (m : gmap string V) (v : V) :
  m !! k = Some v -> has_key k m = true.
Proof.
  intros H. unfold has_key. apply bool_decide_eq_true. rewrite H. now exists v.
Qed.

(** What either manifest gives is among the frameworks. *)
Lemma detect_frameworks_parsed d sr fw :
  fw ∈ _parse_package_json d sr ∨ fw ∈ _parse_requirements d sr ->
  In fw (_detect_frameworks d sr).
Proof.
  unfold _detect_frameworks. rewrite in_sorted_elements. intros [H | H].
  - assert (Hk : has_key "package" (special_files sr) = true).
    { unfold _parse_package_json in H.
      destruct (special_files sr !! "package") as [f |] eqn:E;
        [now apply (has_key_lookup _ _ f) |].
      apply not_elem_of_empty in H. destruct H. }
    rewrite Hk.
    destruct (has_key "requirements" (special_files sr));
      repeat rewrite elem_of_union; tauto.
  - assert (Hk : has_key "requirements" (special_files sr) = true).
    { unfold _parse_requirements in H.
      destruct (special_files sr !! "requirements") as [f |] eqn:E;
        [now apply (has_key_lookup _ _ f) |].
      apply not_elem_of_empty in H. destruct H. }
    rewrite Hk. apply elem_of_union. now right.
Qed.

(** X16. When the scan found a file of the category [requirements] and
    its text can be read, each of the five words that occurs anywhere in
    the lowered text, as part of another name or in a comment as well,
    adds its framework. *)
Theorem requirements_word_gives_framework (d : disk) (sr : ScanResult)
    (req_file : Path) (content word framework : string) :
  special_files sr !! "requirements" = Some req_file ->
  text_lower d req_file = Some content ->
  In (word, framework) requirement_words ->
  Str.contains word content = true ->
  In framework (_detect_frameworks d sr).
Proof.
  intros Hf Hc Hin Hw. apply detect_frameworks_parsed. right.
  unfold _parse_requirements. rewrite Hf, Hc.
  unfold requirement_words in Hin. cbn [In] in Hin.
  repeat rewrite elem_of_union.
  repeat (destruct Hin as [Hin | Hin];
          [injection Hin as <- <-; rewrite Hw; cbn [when];
           rewrite elem_of_singleton; tauto |]).
  destruct Hin.
Qed.

(** X16 on [service_project], whose requirements name [flask-cors]. *)
Lemma requirements_word_gives_framework_witness :
  special_files (ProjectScanner.scan service_project) !! "requirements"
    = Some ["svc"; "requirements.txt"] ∧
  text_lower flask_cors_disk ["svc"; "requirements.txt"] = Some "flask-cors==4.0.0" ∧
  In ("flask", "Flask") requirement_words ∧
  Str.contains "flask" "flask-cors==4.0.0" = true ∧
  In "Flask" (_detect_frameworks flask_cors_disk (ProjectScanner.scan service_project)).
Proof.
  assert (H1 : special_files (ProjectScanner.scan service_project) !! "requirements"
               = Some ["svc"; "requirements.txt"]) by (vm_compute; reflexivity).
  assert (H2 : text_lower flask_cors_disk ["svc"; "requirements.txt"]
               = Some "flask-cors==4.0.0") by reflexivity.
  assert (H3 : In ("flask", "Flask") requirement_words) by (right; left; reflexivity).
  assert (H4 : Str.contains "flask" "flask-cors==4.0.0" = true)
    by (vm_compute; reflexivity).
  do 4 (split; [assumption |]).
  exact (requirements_word_gives_framework flask_cors_disk
           (ProjectScanner.scan service_project) ["svc"; "requirements.txt"]
           "flask-cors==4.0.0" "flask" "Flask" H1 H2 H3 H4).
Defined.

(** X17. When the scan found a file of the category [package], be it
    [package.json] or not, and it parses as JSON, each of the five
    dependencies that it declares adds its framework. *)
Theorem package_dependency_gives_framework (d : disk) (sr : ScanResult)
    (package_file : Path) (deps : gset string) (dependency framework : string) :
  special_files sr !! "package" = Some package_file ->
  manifest_dependencies d package_file = Some deps ->
  In (dependency, framework) package_dependencies ->
  dependency ∈ deps ->
  In framework (_detect_frameworks d sr).
Proof.
  intros Hf Hd Hin Hdep. apply detect_frameworks_parsed. left.
  unfold _parse_package_json. rewrite Hf, Hd.
  unfold package_dependencies in Hin. cbn [In] in Hin.
  repeat rewrite elem_of_union.
  repeat (destruct Hin as [Hin | Hin];
          [injection Hin as <- <-; rewrite (bool_decide_eq_true_2 _ Hdep);
           cbn [when]; rewrite elem_of_singleton; tauto |]).
  destruct Hin.
Qed.

(** X17 on [go_project], whose package file is [go.mod]. *)
Lemma package_dependency_gives_framework_witness :
  special_files (ProjectScanner.scan go_project) !! "package" = Some ["web"; "go.mod"] ∧
  manifest_dependencies vue_disk ["web"; "go.mod"] = Some {[ "vue" ]} ∧
  In ("vue", "Vue.js") package_dependencies ∧
  "vue" ∈ ({[ "vue" ]} : gset string) ∧
  In "Vue.js" (_detect_frameworks vue_disk (ProjectScanner.scan go_project)).
Proof.
  assert (H1 : special_files (ProjectScanner.scan go_project) !! "package"
               = Some ["web"; "go.mod"]) by (vm_compute; reflexivity).
  assert (H2 : manifest_dependencies vue_disk ["web"; "go.mod"] = Some {[ "vue" ]})
    by reflexivity.
  assert (H3 : In ("vue", "Vue.js") package_dependencies)
    by (do 2 right; left; reflexivity).
  assert (H4 : "vue" ∈ ({[ "vue" ]} : gset string)) by (now apply elem_of_singleton).
  do 4 (split; [assumption |]).
  exact (package_dependency_gives_framework vue_disk (ProjectScanner.scan go_project)
           ["web"; "go.mod"] {[ "vue" ]} "vue" "Vue.js" H1 H2 H3 H4).
Defined.

End ManifestFrameworks.

(** ** The detector: the indicators of tests and of documentation *)

Section Indicators.
Import TechDetector.

Lemma prefix_app_l (a b s : string) :
  String.prefix (a +:+ b) s = true -> String.prefix a s = true.
Proof.
  revert a. induction s as [| x s IH]; intros a H.
  - destruct a as [| c a]; [reflexivity |]. rewrite append_cons in H. exact H.
  - destruct a as [| c a]; [reflexivity |]. rewrite append_cons in H.
    cbn [String.prefix] in *.
    destruct (ascii_dec c x); [now apply IH | discriminate H].
Qed.

(** A text that contains a word contains every beginning of it. *)
Lemma contains_app_l (a b s : string) :
  Str.contains (a +:+ b) s = true -> Str.contains a s = true.
Proof.
  induction s as [| x s IH]; cbn [Str.contains]; intros H;
    apply orb_true_iff in H; apply orb_true_iff; destruct H as [H | H].
  - left. exact (prefix_app_l a b _ H).
  - discriminate H.
  - left. exact (prefix_app_l a b _ H).
  - right. now apply IH.
Qed.

(** A text that contains a word contains the word less its first character. *)
Lemma contains_tail (c : ascii) (a s : string) :
  Str.contains (String c a) s = true -> Str.contains a s = true.
Proof.
  induction s as [| x s IH]; cbn [Str.contains]; intros H;
    apply orb_true_iff in H; destruct H as [H | H]; try discriminate H.
  - apply orb_true_iff. right. cbn [String.prefix] in H.
    destruct (ascii_dec c x); [| discriminate H].
    destruct s as [| y s]; cbn [Str.contains]; rewrite H; reflexivity.
  - apply orb_true_iff. right. now apply IH.
Qed.

Lemma existsb_pointwise {A} (p q : A -> bool) (l : list A) :
  (forall a, p a = q a) -> existsb p l = existsb q l.
Proof.
  intros H. induction l as [| a l IH]; cbn [existsb]; [reflexivity |].
  now rewrite H, IH.
Qed.

(** X18. Of the six indicators of tests three decide, and of the four of
    documentation two: a text that contains [tests], [__tests__] or
    [pytest] contains [test], and one that contains [docs] or
    [documentation] contains [doc]. *)
Theorem indicators_that_decide (sr : ScanResult) :
  _has_tests sr =
    existsb (fun f => existsb (fun indicator =>
                                 Str.contains indicator (Str.lower (PurePath.str f)))
                              ["test"; "spec"; "jest"])
            (files sr) ∧
  _has_docs sr =
    existsb (fun f => existsb (fun indicator => Str.contains indicator (PurePath.str f))
                              ["doc"; "README"])
            (files sr).
Proof.
  unfold _has_tests, _has_docs. cbv zeta.
  split; apply existsb_pointwise; intros f; cbn [existsb].
  - pose proof (contains_app_l "test" "s" (Str.lower (PurePath.str f))) as H1.
    assert (H2 : Str.contains "__tests__" (Str.lower (PurePath.str f)) = true ->
                 Str.contains "test" (Str.lower (PurePath.str f)) = true).
    { intros H. apply (contains_app_l "test" "s__").
      apply (contains_tail "_"), (contains_tail "_"). exact H. }
    assert (H3 : Str.contains "pytest" (Str.lower (PurePath.str f)) = true ->
                 Str.contains "test" (Str.lower (PurePath.str f)) = true).
    { intros H. apply (contains_tail "y"), (contains_tail "p"). exact H. }
    change ("test" +:+ "s") with "tests" in H1.
    destruct (Str.contains "test" (Str.lower (PurePath.str f))); [reflexivity |].
    destruct (Str.contains "tests" (Str.lower (PurePath.str f)));
      [discriminate (H1 eq_refl) |].
    destruct (Str.contains "__tests__" (Str.lower (PurePath.str f)));
      [discriminate (H2 eq_refl) |].
    destruct (Str.contains "pytest" (Str.lower (PurePath.str f)));
      [discriminate (H3 eq_refl) |].
    cbn [orb]. now rewrite orb_false_r.
  - pose proof (contains_app_l "doc" "s" (PurePath.str f)) as H1.
    pose proof (contains_app_l "doc" "umentation" (PurePath.str f)) as H2.
    change ("doc" +:+ "s") with "docs" in H1.
    change ("doc" +:+ "umentation") with "documentation" in H2.
    destruct (Str.contains "doc" (PurePath.str f));
      [now rewrite !orb_true_r |].
    destruct (Str.contains "docs" (PurePath.str f));
      [discriminate (H1 eq_refl) |].
    destruct (Str.contains "documentation" (PurePath.str f));
      [discriminate (H2 eq_refl) |].
    reflexivity.
Qed.

End Indicators.

(** ** The generator: which sections the document has *)

Section GeneratorSections.
Import TemplateGenerator.

(** A joined text whose first piece starts with a character is not empty. *)
Lemma join_literal_head sep c s l :
  String.eqb (Str.join sep (String c s :: l)) EmptyString = false.
Proof.
  unfold Str.join. destruct l as [| y l]; cbn [String.concat]; reflexivity.
Qed.

Ltac literal_head :=
  cbv zeta; unfold Str.multiline; cbn [app]; apply join_literal_head.

(** X19. The tech-stack section is empty, and so left out of the document,
    exactly when no language, no framework and no tool was detected. *)
Theorem tech_stack_omitted_iff (g : TemplateGenerator.t) :
  _generate_tech_stack g = EmptyString <->
  languages (self_tech_info g) = [] ∧
  frameworks (self_tech_info g) = [] ∧
  tools (self_tech_info g) = [].
Proof.
  unfold _generate_tech_stack. cbv zeta.
  destruct (languages (self_tech_info g)) as [| l ls],
           (frameworks (self_tech_info g)) as [| f fs],
           (tools (self_tech_info g)) as [| t ts];
    cbn [app length Nat.ltb Nat.leb];
    (split; [intros H | intros (H1 & H2 & H3)]);
    first [ discriminate
          | reflexivity
          | repeat split; reflexivity
          | apply String.eqb_eq in H; rewrite join_literal_head in H;
            discriminate H ].
Qed.

Lemma header_nonempty g : String.eqb (_generate_header g) EmptyString = false.
Proof. unfold _generate_header. literal_head. Qed.

Lemma badges_nonempty g : String.eqb (_generate_badges g) EmptyString = false.
Proof. unfold _generate_badges. literal_head. Qed.

Lemma description_nonempty g : String.eqb (_generate_description g) EmptyString = false.
Proof. unfold _generate_description. literal_head. Qed.

Lemma demo_nonempty g : String.eqb (_generate_demo_section g) EmptyString = false.
Proof. unfold _generate_demo_section. literal_head. Qed.

Lemma features_nonempty g : String.eqb (_generate_features g) EmptyString = false.
Proof. unfold _generate_features. literal_head. Qed.

Lemma quick_start_nonempty g : String.eqb (_generate_quick_start g) EmptyString = false.
Proof. unfold _generate_quick_start. literal_head. Qed.

Lemma installation_nonempty g : String.eqb (_generate_installation g) EmptyString = false.
Proof. unfold _generate_installation. literal_head. Qed.

Lemma usage_nonempty g : String.eqb (_generate_usage g) EmptyString = false.
Proof. unfold _generate_usage. literal_head. Qed.

Lemma project_structure_nonempty g :
  String.eqb (_generate_project_structure g) EmptyString = false.
Proof. unfold _generate_project_structure. literal_head. Qed.

Lemma roadmap_nonempty g : String.eqb (_generate_roadmap g) EmptyString = false.
Proof. unfold _generate_roadmap. literal_head. Qed.

Lemma contributing_nonempty g : String.eqb (_generate_contributing g) EmptyString = false.
Proof. unfold _generate_contributing. literal_head. Qed.

Lemma license_nonempty g : String.eqb (_generate_license g) EmptyString = false.
Proof.
  unfold _generate_license.
  destruct (has_key "license" (special_files (self_scan_results g))); literal_head.
Qed.

Lemma acknowledgments_nonempty g :
  String.eqb (_generate_acknowledgments g) EmptyString = false.
Proof. unfold _generate_acknowledgments. literal_head. Qed.

Lemma footer_nonempty g : String.eqb (_generate_footer g) EmptyString = false.
Proof. unfold _generate_footer. literal_head. Qed.

(** Every section other than the tech stack is never empty. *)
Lemma non_empty_sections (g : TemplateGenerator.t) :
  non_empty (sections g) =
  if String.eqb (_generate_tech_stack g) EmptyString
  then sections_but_tech_stack g
  else sections g.
Proof.
  unfold non_empty, sections, sections_but_tech_stack. cbn [List.filter].
  rewrite header_nonempty, badges_nonempty, description_nonempty, demo_nonempty,
    features_nonempty, quick_start_nonempty, installation_nonempty, usage_nonempty,
    project_structure_nonempty, roadmap_nonempty, contributing_nonempty,
    license_nonempty, acknowledgments_nonempty, footer_nonempty.
  cbn [negb].
  destruct (String.eqb (_generate_tech_stack g) EmptyString); reflexivity.
Qed.

(** X20. Whatever was scanned and detected, the document is all fifteen
    sections in their order, joined by blank lines, or the fourteen other
    than the tech stack when that one is empty: no other section is ever
    left out. *)
Theorem generate_sections (g : TemplateGenerator.t) :
  generate g =
  Str.join (Str.nl +:+ Str.nl)
    (if String.eqb (_generate_tech_stack g) EmptyString
     then sections_but_tech_stack g
     else sections g).
Proof. unfold generate. now rewrite non_empty_sections. Qed.

End GeneratorSections.

(** ** The special files, as the detector and the generator use them *)

Section SpecialFiles.

Lemma is_some_find {A B} (p : A -> bool) (g : A -> B) (l : list A) :
  bool_decide (is_Some (match find p l with Some a => Some (g a) | None => None end))
  = existsb p l.
Proof.
  induction l as [| a l IH]; cbn [find existsb]; [reflexivity |].
  destruct (p a); [reflexivity | exact IH].
Qed.

(** A category is a key of the special files of the dict [scan] returns
    exactly when [exists()] is true for one of its candidates. *)
Lemma has_key_special pr sr category filenames :
  ProjectScanner.scan_outcome pr = Some sr ->
  In (category, filenames) ProjectScanner.important ->
  has_key category (special_files sr) = existsb (found pr) filenames.
Proof.
  intros Hsr Hin. unfold has_key.
  rewrite (special_files_lookup pr sr category filenames Hsr Hin).
  apply is_some_find.
Qed.

Lemma license_row :
  In ("license", license_candidates) ProjectScanner.important.
Proof. right; left; reflexivity. Qed.

Lemma ci_row : In ("ci", ci_candidates) ProjectScanner.important.
Proof. do 6 right; left; reflexivity. Qed.

(** X21. When [scan] returns, the license section of the document made
    from its dict is the MIT text if [exists()] is true for [LICENSE],
    [LICENSE.md], [LICENSE.txt] or [COPYING] under the project path,
    whatever the file holds, and the text for an unlicensed project if it
    is true for none of them. *)
Theorem license_section_from_candidates (d : disk) (pr : project) (sr : ScanResult) :
  ProjectScanner.scan_outcome pr = Some sr ->
  TemplateGenerator._generate_license (generator_from d sr) =
  if existsb (found pr) license_candidates
  then mit_license_section
  else unlicensed_section.
Proof.
  intros Hsr. unfold TemplateGenerator._generate_license, generator_from.
  cbn [TemplateGenerator.self_scan_results].
  rewrite (has_key_special pr sr "license" license_candidates Hsr license_row).
  destruct (existsb (found pr) license_candidates); reflexivity.
Qed.

(** X21 on [licensed_project]. *)
Lemma license_section_from_candidates_witness :
  ProjectScanner.scan_outcome licensed_project
    = Some (ProjectScanner.scan licensed_project) ∧
  TemplateGenerator._generate_license
    (generator_from unreadable_disk (ProjectScanner.scan licensed_project)) =
  if existsb (found licensed_project) license_candidates
  then mit_license_section
  else unlicensed_section.
Proof.
  assert (H0 : ProjectScanner.scan_outcome licensed_project
               = Some (ProjectScanner.scan licensed_project))
    by (vm_compute; reflexivity).
  split; [exact H0 |].
  exact (license_section_from_candidates unreadable_disk licensed_project
           (ProjectScanner.scan licensed_project) H0).
Defined.

(** X22. When [scan] returns, the CI flag is set on its dict, and
    ['CI/CD'] is among the tools, exactly when [exists()] is true for
    [.github/workflows], [.gitlab-ci.yml], [.travis.yml] or [Jenkinsfile]
    under the project path: the test is on existence, so that the scanner
    ignoring [.github] and hiding the dot files does not matter. *)
Theorem ci_from_candidates (d : disk) (pr : project) (sr : ScanResult) :
  ProjectScanner.scan_outcome pr = Some sr ->
  has_ci (TechDetector.detect d sr) = existsb (found pr) ci_candidates ∧
  (In "CI/CD" (tools (TechDetector.detect d sr)) <->
   existsb (found pr) ci_candidates = true).
Proof.
  intros Hsr. cbn [TechDetector.detect has_ci tools].
  unfold TechDetector._has_ci, TechDetector._detect_tools.
  rewrite (has_key_special pr sr "ci" ci_candidates Hsr ci_row).
  split; [reflexivity |].
  destruct (has_key "docker" (special_files sr)),
           (existsb (found pr) ci_candidates),
           (has_key "makefile" (special_files sr)),
           (TechDetector.any_path_contains ".yaml" sr
            || TechDetector.any_path_contains ".yml" sr),
           (TechDetector.any_path_contains "k8s" sr
            || TechDetector.any_path_contains "kubernetes" sr);
    cbn [app In]; split;
    try (intros _; reflexivity);
    try (intros _; tauto);
    try (intros H; discriminate H);
    try (intros H; exfalso;
         repeat (destruct H as [H | H]; [discriminate H |]); exact H).
Qed.

(** X22 on [ci_project], whose workflows lie in the ignored [.github]. *)
Lemma ci_from_candidates_witness :
  ProjectScanner.scan_outcome ci_project = Some (ProjectScanner.scan ci_project) ∧
  (has_ci (TechDetector.detect unreadable_disk (ProjectScanner.scan ci_project))
     = existsb (found ci_project) ci_candidates ∧
   (In "CI/CD" (tools (TechDetector.detect unreadable_disk
                         (ProjectScanner.scan ci_project))) <->
    existsb (found ci_project) ci_candidates = true)).
Proof.
  assert (H0 : ProjectScanner.scan_outcome ci_project
               = Some (ProjectScanner.scan ci_project))
    by (vm_compute; reflexivity).
  split; [exact H0 |].
  exact (ci_from_candidates unreadable_disk ci_project
           (ProjectScanner.scan ci_project) H0).
Defined.

End SpecialFiles.

(** ** The tree of the scan *)

Section Tree.
Import ProjectScanner.

Lemma generate_tree_empty (max_files : nat) (self : ProjectScanner.t) :
  self_files self = [] ->
  _generate_tree max_files self = PurePath.name (self_project_path self) +:+ "/".
Proof.
  intros H. unfold _generate_tree. cbv zeta. rewrite H.
  change (sorted tree_key_leb []) with (@nil Path).
  rewrite take_nil. cbn [fold_left].
  rewrite dom_empty_L, elements_empty.
  change (sorted PurePath.leb []) with (@nil Path).
  cbn [flat_map length app].
  replace (max_files <? 0) with false by (symmetry; apply Nat.ltb_ge; lia).
  reflexivity.
Qed.

Lemma generate_tree_more (max_files : nat) (self : ProjectScanner.t) :
  max_files < length (self_files self) ->
  exists shown,
    _generate_tree max_files self =
    shown +:+ Str.nl +:+ "  ... and "
      +:+ Str.of_nat (length (self_files self) - max_files) +:+ " more files".
Proof.
  intros H. unfold _generate_tree. cbv zeta.
  apply Nat.ltb_lt in H. rewrite H.
  match goal with
  | |- context [Str.join _ (?h ++ ?b ++ ?m)] =>
      exists (Str.join Str.nl (h ++ b));
      rewrite (app_assoc h b m);
      rewrite (join_append Str.nl (h ++ b) m) by (cbn [app]; discriminate)
  end.
  reflexivity.
Qed.

(** X23. A scan that records no file, of an empty directory or of one
    that cannot be listed, has as its tree the one line [name/]. *)
Theorem empty_scan_tree (pr : project) :
  files (scan pr) = [] ->
  file_tree (scan pr) = project_name (scan pr) +:+ "/".
Proof.
  cbn [scan files file_tree project_name]. apply generate_tree_empty.
Qed.

(** X23 on [empty_project]. *)
Lemma empty_scan_tree_witness :
  files (scan empty_project) = [] ∧
  file_tree (scan empty_project) = project_name (scan empty_project) +:+ "/".
Proof.
  assert (H : files (scan empty_project) = []) by reflexivity.
  split; [exact H |]. exact (empty_scan_tree empty_project H).
Defined.

(** X24. The tree shows at most fifty files: when the scan recorded more,
    its last line says how many are left out, the count less fifty. *)
Theorem crowded_scan_tree (pr : project) :
  default_max_files < file_count (scan pr) ->
  exists shown,
    file_tree (scan pr) =
    shown +:+ Str.nl +:+ "  ... and "
      +:+ Str.of_nat (file_count (scan pr) - default_max_files) +:+ " more files".
Proof.
  cbn [scan file_count file_tree]. apply generate_tree_more.
Qed.

(** X24 on [crowded_project], with its fifty-one files. *)
Lemma crowded_scan_tree_witness :
  default_max_files < file_count (scan crowded_project) ∧
  exists shown,
    file_tree (scan crowded_project) =
    shown +:+ Str.nl +:+ "  ... and "
      +:+ Str.of_nat (file_count (scan crowded_project) - default_max_files)
      +:+ " more files".
Proof.
  assert (H : default_max_files < file_count (scan crowded_project))
    by (apply Nat.ltb_lt; vm_compute; reflexivity).
  split; [exact H |]. exact (crowded_scan_tree crowded_project H).
Defined.

End Tree.

(** ** The enhancer: the credential, the one call and what can be raised *)

Section EnhancerRuns.
Import AIEnhancer.
Local Open Scope enhancer_scope.

(** X25. Constructing the enhancer succeeds exactly on a non-empty
    credential, which it stores; a credential set to the empty string is
    refused like a missing one, with the same [ValueError]. Nothing is
    logged either way. *)
Theorem init_key_from_environment (w : world) :
  match run (init w) with
  | (inr self, log) =>
      environ w !! "ANTHROPIC_API_KEY" = Some (self_api_key self) ∧
      String.eqb (self_api_key self) EmptyString = false ∧
      log = []
  | (inl e, log) =>
      (environ w !! "ANTHROPIC_API_KEY" = None ∨
       environ w !! "ANTHROPIC_API_KEY" = Some EmptyString) ∧
      e = missing_key_error ∧
      log = []
  end.
Proof.
  unfold run, init.
  destruct (environ w !! "ANTHROPIC_API_KEY") as [key |] eqn:E.
  - destruct (String.eqb key EmptyString) eqn:Ek; cbn [raise ret].
    + apply String.eqb_eq in Ek. subst key.
      split; [right; reflexivity |]. split; reflexivity.
    + cbn [self_api_key]. split; [reflexivity |]. split; [exact Ek | reflexivity].
  - cbn [raise]. split; [left; reflexivity |]. split; reflexivity.
Qed.

(** X26. [enhance] raises only before any call or print: the
    [ImportError] of a missing client library, or what building the client
    raises. Once the client is built it always returns, after exactly one
    call to the service, made with the stored key; what it returns is the
    document it was given or the text of the first block of the answer.
    The exceptions are those that derive from [Exception], the only ones
    the model has. *)
Theorem enhance_raises_before_any_call (w : world) (self : t)
    (readme_content : string) (scan_results : ScanResult) (tech_info : TechInfo) :
  match run (enhance w self readme_content scan_results tech_info) with
  | (inl e, log) =>
      log = [] ∧
      (anthropic_installed w = false ∧ e = import_error ∨
       anthropic_installed w = true ∧ client_raises w (self_api_key self) = Some e)
  | (inr out, log) =>
      anthropic_installed w = true ∧
      client_raises w (self_api_key self) = None ∧
      network_calls log =
        [NetworkCall (self_api_key self)
           (enhance_request readme_content scan_results tech_info)] ∧
      (out = readme_content ∨
       exists rest,
         remote w (self_api_key self)
           (enhance_request readme_content scan_results tech_info)
         = Returns (TextBlock out :: rest))
  end.
Proof.
  unfold run, enhance, Anthropic, enhance_request, bind, try_except,
    messages_create, bind, emit, print, emit.
  destruct (anthropic_installed w); cbn [ret raise app];
    [| split; [reflexivity | left; split; reflexivity]].
  destruct (client_raises w (self_api_key self)) as [e |]; cbn [ret raise app];
    [split; [reflexivity | right; split; reflexivity] |].
  destruct (remote w (self_api_key self) _) as [e' | [| [text | class] rest]] eqn:E;
    cbn [raise ret first_text app network_calls List.filter];
    (split; [reflexivity |]); (split; [reflexivity |]); (split; [reflexivity |]);
    first [ right; exists rest; reflexivity | left; reflexivity ].
Qed.

(** X27. The whole path when all goes well: with a non-empty credential in
    the environment, the library installed, the client built and an answer
    whose first block is a text, constructing the enhancer and enhancing
    returns that text; the one call carries the credential, and nothing
    is printed. *)
Theorem enhance_returns_first_text (w : world) (key readme_content text : string)
    (scan_results : ScanResult) (tech_info : TechInfo) (rest : list block) :
  environ w !! "ANTHROPIC_API_KEY" = Some key ->
  String.eqb key EmptyString = false ->
  anthropic_installed w = true ->
  client_raises w key = None ->
  remote w key (enhance_request readme_content scan_results tech_info)
    = Returns (TextBlock text :: rest) ->
  run (self <- init w ;; enhance w self readme_content scan_results tech_info) =
  (inr text,
   [NetworkCall key (enhance_request readme_content scan_results tech_info)]).
Proof.
  intros Hkey Hne Hinst Hclient Hremote.
  unfold run, bind at 1, init. rewrite Hkey, Hne. cbn [ret].
  unfold enhance, Anthropic, bind, try_except, messages_create, bind, emit.
  rewrite Hinst. cbn [ret app self_api_key]. rewrite Hclient. cbn [ret app].
  unfold enhance_request in Hremote. rewrite Hremote.
  reflexivity.
Qed.

(** X27 in [world_online], whose service answers with two blocks. *)
Lemma enhance_returns_first_text_witness :
  environ world_online !! "ANTHROPIC_API_KEY" = Some "sk-test" ∧
  String.eqb "sk-test" EmptyString = false ∧
  anthropic_installed world_online = true ∧
  client_raises world_online "sk-test" = None ∧
  remote world_online "sk-test"
    (enhance_request "# README" (ProjectScanner.scan sample_project)
       (TechDetector.detect unreadable_disk (ProjectScanner.scan sample_project)))
    = Returns [TextBlock "# Improved"; TextBlock "ignored"] ∧
  run (self <- init world_online ;;
       enhance world_online self "# README" (ProjectScanner.scan sample_project)
         (TechDetector.detect unreadable_disk (ProjectScanner.scan sample_project))) =
  (inr "# Improved",
   [NetworkCall "sk-test"
      (enhance_request "# README" (ProjectScanner.scan sample_project)
         (TechDetector.detect unreadable_disk (ProjectScanner.scan sample_project)))]).
Proof.
  do 5 (split; [reflexivity |]).
  exact (enhance_returns_first_text world_online "sk-test" "# README" "# Improved"
           (ProjectScanner.scan sample_project)
           (TechDetector.detect unreadable_disk (ProjectScanner.scan sample_project))
           [TextBlock "ignored"] eq_refl eq_refl eq_refl eq_refl eq_refl).
Defined.

End EnhancerRuns.
